(** * Email-Verifier: a shallow embedding of [email_validator.py]

    The module validates e-mail addresses in three stages (format check,
    DNS MX lookup, SMTP [RCPT TO] probe), iterates over a batch with a
    randomised pause between items, and moves the batch in and out of a
    spreadsheet.

    Modelling choices.
    - A Python [str] is a Rocq [string] holding the UTF-8 bytes of the
      text; [bytes] is [list byte]; [int] is [Z]; the [float] delays are
      rationals ([Q]), so rounding of the delay arithmetic is not
      modelled.
    - Everything the program does to the outside (library calls, logging,
      console output, sleeping) is recorded as an [event].  A computation
      reads the history of events so far and returns its result together
      with the events it added.
    - The third-party routines ([validate_email], [dns.resolver.resolve],
      [smtplib.SMTP], [random.random], [pandas.read_excel],
      [DataFrame.to_excel]) are oracles of a [World]: arbitrary functions
      of the history and of their arguments, returning a value or raising
      an exception.  Theorems quantify over every [World].
    - Only exceptions deriving from Python's [Exception] are modelled.
      The [logging] calls, [logging.basicConfig] included, and [print]
      are taken to succeed: a log file that cannot be opened or a
      console that cannot encode a line is outside the model, and no
      statement below says that such failures cannot happen.
    - [time.sleep] follows CPython: the duration is first converted to a
      signed 64-bit count of nanoseconds, rounding away from zero, with
      [OverflowError] when it does not fit (beyond about 9.22e9 seconds
      on either side); a negative duration that fits gives [ValueError].
      The conversion is decided on the exact rational value.
    - Exception messages produced by the interpreter itself (unpacking,
      indexing, decoding, [time.sleep]) follow CPython 3.11. *)

From Stdlib Require Import String Ascii List ZArith NArith QArith Lia Bool.
From Stdlib Require Import Strings.Byte DecimalString Lqa Qround.
Import ListNotations.

Local Close Scope Q_scope.
Local Open Scope string_scope.
Local Open Scope list_scope.

Infix "+++" := String.append (right associativity, at level 60).

(** ** Python values and their [str()] rendering *)

Inductive pyval : Type :=
| PyStr (s : string)
| PyInt (z : Z)
| PyBool (b : bool)
| PyNone.

(** [isinstance(v, str)] *)
Definition isinstance_str (v : pyval) : bool :=
  match v with PyStr _ => true | _ => false end.

Definition str_of_Z (z : Z) : string := NilZero.string_of_int (Z.to_int z).
Definition str_of_nat (n : nat) : string := str_of_Z (Z.of_nat n).
Definition str_of_bool (b : bool) : string := if b then "True" else "False".

(** What an f-string substitutes for [{v}]. *)
Definition py_str (v : pyval) : string :=
  match v with
  | PyStr s => s
  | PyInt z => str_of_Z z
  | PyBool b => str_of_bool b
  | PyNone => "None"
  end.

(** Substring test, Python's [sub in s]. *)
Fixpoint str_contains (sub s : string) : bool :=
  String.prefix sub s ||
  match s with
  | EmptyString => false
  | String _ s' => str_contains sub s'
  end.

(** ** Exceptions *)

Inductive exn_class : Type :=
| EmailNotValidError
| EmailSyntaxError
| EmailUndeliverableError
| SMTPConnectError
| SMTPServerDisconnected
| SMTPResponseException
| DNSException
| OSError
| FileNotFoundError
| UnicodeDecodeError
| ValueError
| IndexError
| OverflowError
| OtherException.

Definition exn_class_eqb (a b : exn_class) : bool :=
  match a, b with
  | EmailNotValidError, EmailNotValidError
  | EmailSyntaxError, EmailSyntaxError
  | EmailUndeliverableError, EmailUndeliverableError
  | SMTPConnectError, SMTPConnectError
  | SMTPServerDisconnected, SMTPServerDisconnected
  | SMTPResponseException, SMTPResponseException
  | DNSException, DNSException
  | OSError, OSError
  | FileNotFoundError, FileNotFoundError
  | UnicodeDecodeError, UnicodeDecodeError
  | ValueError, ValueError
  | IndexError, IndexError
  | OverflowError, OverflowError
  | OtherException, OtherException => true
  | _, _ => false
  end.

(** The direct base class, for the classes that have one below
    [Exception]. *)
Definition base_class (c : exn_class) : option exn_class :=
  match c with
  | EmailSyntaxError | EmailUndeliverableError => Some EmailNotValidError
  | EmailNotValidError => Some ValueError
  | SMTPConnectError => Some SMTPResponseException
  | SMTPResponseException | SMTPServerDisconnected => Some OSError
  | FileNotFoundError => Some OSError
  | UnicodeDecodeError => Some ValueError
  | _ => None
  end.

Fixpoint subclass_fuel (n : nat) (c target : exn_class) : bool :=
  exn_class_eqb c target ||
  match n with
  | O => false
  | S n' =>
      match base_class c with
      | Some b => subclass_fuel n' b target
      | None => false
      end
  end.

(** [issubclass(c, target)]; the hierarchy above is four levels deep. *)
Definition issubclass (c target : exn_class) : bool := subclass_fuel 4 c target.

(** An exception instance: its class and what [str(e)] gives. *)
Record exn : Type := mkExn { exn_cls : exn_class; exn_msg : string }.

(** [except target as e] matches [e]. *)
Definition isinstance_exn (e : exn) (target : exn_class) : bool :=
  issubclass (exn_cls e) target.

Inductive result (A : Type) : Type :=
| Ok (a : A)
| Raise (e : exn).
Arguments Ok {A} a.
Arguments Raise {A} e.

(** ** Decoding [bytes] as UTF-8

    [bytes.decode('utf-8')] in strict mode.  On success the text is the
    very byte sequence (a [str] is kept as its UTF-8 bytes).  On failure
    the error carries the half-open byte range and the reason that
    CPython reports. *)

Inductive utf8_reason : Type :=
| InvalidStartByte
| InvalidContinuationByte
| UnexpectedEndOfData.

Definition is_continuation_byte (b : N) : bool :=
  ((128 <=? b) && (b <? 192))%N.

(** Result of scanning one code point at the head of the input:
    [inl n] means [n] bytes were consumed, [inr (len, why)] an error
    covering [len] bytes. *)
Definition utf8_head (bs : list N) : nat + (nat * utf8_reason) :=
  match bs with
  | [] => inl 0%nat
  | ch :: t1 =>
    if (ch <? 128)%N then inl 1%nat
    else if (ch <? 194)%N then inr (1%nat, InvalidStartByte)
    else if (ch <? 224)%N then
      match t1 with
      | [] => inr (length bs, UnexpectedEndOfData)
      | ch2 :: _ =>
        if is_continuation_byte ch2 then inl 2%nat
        else inr (1%nat, InvalidContinuationByte)
      end
    else if (ch <? 240)%N then
      match t1 with
      | [] => inr (length bs, UnexpectedEndOfData)
      | ch2 :: t2 =>
        if negb (is_continuation_byte ch2)
           || (if (ch2 <? 160)%N then (ch =? 224)%N else (ch =? 237)%N)
        then inr (1%nat, InvalidContinuationByte)
        else
          match t2 with
          | [] => inr (length bs, UnexpectedEndOfData)
          | ch3 :: _ =>
            if is_continuation_byte ch3 then inl 3%nat
            else inr (2%nat, InvalidContinuationByte)
          end
      end
    else if (ch <? 245)%N then
      match t1 with
      | [] => inr (length bs, UnexpectedEndOfData)
      | ch2 :: t2 =>
        if negb (is_continuation_byte ch2)
           || (if (ch2 <? 144)%N then (ch =? 240)%N else (ch =? 244)%N)
        then inr (1%nat, InvalidContinuationByte)
        else
          match t2 with
          | [] => inr (length bs, UnexpectedEndOfData)
          | ch3 :: t3 =>
            if negb (is_continuation_byte ch3)
            then inr (2%nat, InvalidContinuationByte)
            else
              match t3 with
              | [] => inr (length bs, UnexpectedEndOfData)
              | ch4 :: _ =>
                if is_continuation_byte ch4 then inl 4%nat
                else inr (3%nat, InvalidContinuationByte)
              end
          end
      end
    else inr (1%nat, InvalidStartByte)
  end.

(** Scan the whole input; [fuel] bounds the number of code points. *)
Fixpoint utf8_scan (fuel pos : nat) (bs : list N)
  : option (nat * nat * utf8_reason) :=
  match fuel with
  | O => None
  | S fuel' =>
    match bs with
    | [] => None
    | _ =>
      match utf8_head bs with
      | inl n => utf8_scan fuel' (pos + n) (skipn n bs)
      | inr (len, why) => Some (pos, pos + len, why)%nat
      end
    end
  end.

Definition hex_digit (n : N) : ascii :=
  match n with
  | 0 => "0" | 1 => "1" | 2 => "2" | 3 => "3" | 4 => "4" | 5 => "5"
  | 6 => "6" | 7 => "7" | 8 => "8" | 9 => "9" | 10 => "a" | 11 => "b"
  | 12 => "c" | 13 => "d" | 14 => "e" | _ => "f"
  end%N%char.

(** [0x%02x] of a byte value. *)
Definition hex_byte (b : N) : string :=
  "0x" +++ String (hex_digit (b / 16)) (String (hex_digit (b mod 16)) "").

Definition utf8_reason_str (r : utf8_reason) : string :=
  match r with
  | InvalidStartByte => "invalid start byte"
  | InvalidContinuationByte => "invalid continuation byte"
  | UnexpectedEndOfData => "unexpected end of data"
  end.

(** [str(UnicodeDecodeError('utf-8', data, start, stop, reason))] *)
Definition unicode_decode_error (data : list N) (start stop : nat)
    (why : utf8_reason) : exn :=
  mkExn UnicodeDecodeError
    (if (stop =? S start)%nat then
       "'utf-8' codec can't decode byte " +++ hex_byte (nth start data 0%N)
       +++ " in position " +++ str_of_nat start +++ ": " +++ utf8_reason_str why
     else
       "'utf-8' codec can't decode bytes in position " +++ str_of_nat start
       +++ "-" +++ str_of_nat (stop - 1) +++ ": " +++ utf8_reason_str why).

(** [data.decode('utf-8')] *)
Definition decode_utf8 (data : list byte) : result string :=
  let ns := map Byte.to_N data in
  match utf8_scan (S (length ns)) 0 ns with
  | None => Ok (string_of_list_byte data)
  | Some (start, stop, why) => Raise (unicode_decode_error ns start stop why)
  end.

(** ** The outside world *)

(** One MX resource record, [exchange] already rendered by [str()]. *)
Record mx_rdata : Type := mkMX { mx_preference : Z; mx_exchange : string }.

(** An SMTP reply: numeric code and raw text. *)
Definition reply : Type := (Z * list byte)%type.

(** A spreadsheet column cell; [None] is a missing value (NaN). *)
Definition cell : Type := option pyval.

(** A [pandas.DataFrame]: the length of its index and its columns in
    order.  In a well-formed frame every column is as long as the
    index. *)
Record DataFrame : Type := mkDF {
  df_index : nat;
  df_columns : list (string * list cell)
}.

Definition df_wf (df : DataFrame) : Prop :=
  Forall (fun c => length (snd c) = df_index df) (df_columns df).

Inductive log_level : Type := INFO | WARNING | ERROR.

Inductive event : Type :=
| EvBasicConfig (filename : string)
| EvLog (lvl : log_level) (msg : string)
| EvPrint (msg : string)
| EvPrintSummary (valid_count total_count : nat)
| EvValidate (email : string) (r : result string)
| EvResolve (domain rdtype : string) (r : result (list mx_rdata))
| EvConnect (host : string) (timeout : Z) (r : result unit)
| EvSetDebuglevel (lvl : Z)
| EvHelo (r : result reply)
| EvMail (sender : string) (r : result reply)
| EvRcpt (recip : string) (r : result reply)
| EvExit (r : result unit)
| EvUniform (a b d : Q)
| EvSleep (d : Q)
| EvReadExcel (path : string) (r : result DataFrame)
| EvToExcel (path : string) (df : DataFrame) (r : result unit).

Definition history : Type := list event.

(** The collaborators.  Each oracle sees the history, so its answers
    may change from one call to the next. *)
Record World : Type := mkWorld {
  (** [email_validator.validate_email(email).email] *)
  validate_email : history -> string -> result string;
  (** [dns.resolver.resolve(domain, rdtype)] *)
  dns_resolve : history -> string -> string -> result (list mx_rdata);
  (** [smtplib.SMTP(host, timeout=...)]: connect and read the greeting *)
  smtp_connect : history -> string -> Z -> result unit;
  smtp_helo : history -> result reply;
  smtp_mail : history -> string -> result reply;
  smtp_rcpt : history -> string -> result reply;
  (** [SMTP.__exit__]: sends QUIT and closes the socket; raises
      [SMTPResponseException] when the reply to QUIT is not 221 *)
  smtp_exit : history -> result unit;
  (** the 53 random bits behind [random.random()] *)
  random_bits : history -> N;
  read_excel : history -> string -> result DataFrame;
  to_excel : history -> DataFrame -> string -> result unit
}.

(** ** Computations *)

(** A computation reads the history and yields a result and the events
    it appended. *)
Definition M (A : Type) : Type := history -> result A * list event.

Definition ret {A} (a : A) : M A := fun _ => (Ok a, []).

Definition raise {A} (e : exn) : M A := fun _ => (Raise e, []).

Definition bind {A B} (m : M A) (f : A -> M B) : M B :=
  fun h =>
    match m h with
    | (Ok a, d) => let (r, d') := f a (h ++ d) in (r, d ++ d')
    | (Raise e, d) => (Raise e, d)
    end.

Notation "x <- m ;; k" := (bind m (fun x => k))
  (at level 61, m at next level, right associativity).
Notation "' pat <- m ;; k" := (bind m (fun x => match x with pat => k end))
  (at level 61, pat pattern, m at next level, right associativity).
Notation "m ;; k" := (bind m (fun _ => k))
  (at level 61, right associativity).

(** [try: m  except Exception as e: handler e] *)
Definition try_except {A} (m : M A) (handler : exn -> M A) : M A :=
  fun h =>
    match m h with
    | (Ok a, d) => (Ok a, d)
    | (Raise e, d) => let (r, d') := handler e (h ++ d) in (r, d ++ d')
    end.

Definition emit (e : event) : M unit := fun _ => (Ok tt, [e]).

(** Ask an oracle and record the call with its outcome. *)
Definition call {A} (oracle : history -> result A) (ev : result A -> event)
  : M A :=
  fun h => let r := oracle h in (r, [ev r]).

Definition logging (lvl : log_level) (msg : string) : M unit :=
  emit (EvLog lvl msg).

Definition print (msg : string) : M unit := emit (EvPrint msg).

(** [seq[i]] *)
Definition getitem {A} (l : list A) (i : nat) : M A :=
  match nth_error l i with
  | Some a => ret a
  | None => raise (mkExn IndexError "list index out of range")
  end.

(** [s.split(sep)] for a one-character separator. *)
Fixpoint split (sep : ascii) (s : string) : list string :=
  match s with
  | EmptyString => [EmptyString]
  | String c s' =>
    if Ascii.eqb c sep then EmptyString :: split sep s'
    else
      match split sep s' with
      | [] => [String c EmptyString]
      | p :: ps => String c p :: ps
      end
  end.

(** [a, b = parts] *)
Definition unpack2 {A} (parts : list A) : M (A * A) :=
  match parts with
  | [a; b] => ret (a, b)
  | [] | [_] =>
    raise (mkExn ValueError
      ("not enough values to unpack (expected 2, got "
       +++ str_of_nat (length parts) +++ ")"))
  | _ => raise (mkExn ValueError "too many values to unpack (expected 2)")
  end.

(** Truth value of an [Optional[str]]. *)
Definition truthy (o : option string) : bool :=
  match o with
  | None | Some EmptyString => false
  | Some _ => true
  end.

(** [try: m  except cls as e: handler e] *)
Definition try_except_as {A} (m : M A) (cls : exn_class)
    (handler : exn -> M A) : M A :=
  try_except m (fun e => if isinstance_exn e cls then handler e else raise e).

(** A library value or exception entering the computation. *)
Definition lift {A} (r : result A) : M A := fun _ => (r, []).

(** ** class EmailValidator *)

Record EmailValidator : Type := mkEmailValidator {
  log_file : string;
  debug_level : Z;
  sender_email : string
}.

Section Program.

Variable W : World.

Definition _setup_logging (self : EmailValidator) : M unit :=
  emit (EvBasicConfig (log_file self)).

(** [EmailValidator.__init__(log_file, debug_level)] *)
Definition EmailValidator_init (log_file : string) (debug_level : Z)
  : M EmailValidator :=
  let self := mkEmailValidator log_file debug_level "verification@example.com" in
  _setup_logging self ;;
  ret self.

Definition get_mx_record (self : EmailValidator) (domain : string)
  : M (option string) :=
  try_except
    (mx_records <- call (fun h => dns_resolve W h domain "MX")
                        (EvResolve domain "MX") ;;
     first <- getitem mx_records 0 ;;
     let mx_record := mx_exchange first in
     logging INFO ("MX record found for " +++ domain +++ ": " +++ mx_record) ;;
     ret (Some mx_record))
    (fun e =>
     logging ERROR ("Error retrieving MX records for " +++ domain +++ ": "
                    +++ exn_msg e) ;;
     ret None).

(** [with smtplib.SMTP(host, timeout=timeout) as server: body].  When the
    constructor raises, the block is not entered and nothing is closed.
    Otherwise [__exit__] runs however the body ended; an exception it
    raises replaces the body's outcome. *)
Definition with_SMTP {A} (host : string) (timeout : Z) (body : M A) : M A :=
  call (fun h => smtp_connect W h host timeout) (EvConnect host timeout) ;;
  (fun h =>
     let (r, d) := body h in
     match smtp_exit W (h ++ d) with
     | Ok u => (r, d ++ [EvExit (Ok u)])
     | Raise e => (Raise e, d ++ [EvExit (Raise e)])
     end).

Definition verify_email (self : EmailValidator) (email : string)
  : M (bool * string) :=
  try_except
    ((* Validate email format *)
     checked <- try_except_as
                  (normalized_email <- call (fun h => validate_email W h email)
                                            (EvValidate email) ;;
                   ret (inl normalized_email))
                  EmailNotValidError
                  (fun e => ret (inr (false, "Invalid email format: "
                                             +++ exn_msg e))) ;;
     match checked with
     | inr early => ret early
     | inl normalized_email =>
       (* Split email into local part and domain *)
       '(local_part, domain) <- unpack2 (split "@" normalized_email) ;;
       (* Get MX record *)
       mx_record <- get_mx_record self domain ;;
       match mx_record with
       | None | Some EmptyString => ret (false, "Domain MX record not found")
       | Some host =>
         (* Connect to email server *)
         with_SMTP host 10
           (emit (EvSetDebuglevel (debug_level self)) ;;
            call (smtp_helo W) EvHelo ;;
            call (fun h => smtp_mail W h (sender_email self))
                 (EvMail (sender_email self)) ;;
            '(code, message) <- call (fun h => smtp_rcpt W h normalized_email)
                                     (EvRcpt normalized_email) ;;
            if (code =? 250)%Z then ret (true, "Email address is valid")
            else
              text <- lift (decode_utf8 message) ;;
              ret (false, "Server response: " +++ str_of_Z code +++ " "
                          +++ text))
       end
     end)
    (fun e =>
     if isinstance_exn e SMTPConnectError then
       ret (false, "SMTP connection error: " +++ exn_msg e)
     else if isinstance_exn e SMTPServerDisconnected then
       ret (false, "SMTP server disconnected: " +++ exn_msg e)
     else
       ret (false, "Error during verification: " +++ exn_msg e)).

(** [random.random()]: a multiple of 2^-53 in [0, 1). *)
Definition random_random : M Q :=
  fun h => (Ok (Z.of_N (random_bits W h mod 2 ^ 53) # 2 ^ 53)%Q, []).

(** [random.uniform(a, b)] is [a + (b - a) * random()]. *)
Definition random_uniform (a b : Q) : M Q :=
  u <- random_random ;;
  let d := (a + (b - a) * u)%Q in
  emit (EvUniform a b d) ;;
  ret d.

(** The duration as [time.sleep] converts it: nanoseconds, rounded away
    from zero. *)
Definition pytime_ns (secs : Q) : Z :=
  if Qle_bool 0 secs then Qceiling (secs * 1000000000)
  else Qfloor (secs * 1000000000).

(** The nanoseconds fit a signed 64-bit integer. *)
Definition fits_pytime (secs : Q) : bool :=
  ((- 2 ^ 63 <=? pytime_ns secs) && (pytime_ns secs <? 2 ^ 63))%Z.

(** [time.sleep(secs)]: the conversion comes first, the sign second. *)
Definition time_sleep (secs : Q) : M unit :=
  if negb (fits_pytime secs) then
    raise (mkExn OverflowError "timestamp too large to convert to C _PyTime_t")
  else if Qle_bool 0 secs then emit (EvSleep secs)
  else raise (mkExn ValueError "sleep length must be non-negative").

Definition verification : Type := (pyval * bool * string)%type.

(** The progress line of item [i] out of [total_emails]. *)
Definition progress_line (i total_emails : nat) (email : pyval)
    (is_valid : bool) (message : string) : string :=
  "[" +++ str_of_nat i +++ "/" +++ str_of_nat total_emails
  +++ "] Email: " +++ py_str email +++ ", Valid: " +++ str_of_bool is_valid
  +++ ", Message: " +++ message.

(** The line logged for an item that is not a string. *)
Definition warning_line (email : pyval) (message : string) : string :=
  "Email: " +++ py_str email +++ ", Valid: False, Message: " +++ message.

(** The [for i, email in enumerate(email_list, 1)] loop; [items] is what
    is left to iterate and [results] the list built so far. *)
Fixpoint process_loop (self : EmailValidator) (min_delay max_delay : Q)
    (total_emails i : nat) (items : list pyval) (results : list verification)
  : M (list verification) :=
  match items with
  | [] => ret results
  | email :: rest =>
    match email with
    | PyStr address =>
      (* Verify the email *)
      '(is_valid, message) <- verify_email self address ;;
      let results := results ++ [(email, is_valid, message)] in
      (* Log and print results *)
      let log_message := progress_line i total_emails email is_valid message in
      logging INFO log_message ;;
      print log_message ;;
      (* Rate limiting with randomized delay (except for last email) *)
      (if (i <? total_emails)%nat then
         delay <- random_uniform min_delay max_delay ;;
         time_sleep delay
       else ret tt) ;;
      process_loop self min_delay max_delay total_emails (S i) rest results
    | _ =>
      let message := "Invalid email type" in
      logging WARNING (warning_line email message) ;;
      process_loop self min_delay max_delay total_emails (S i) rest
                   (results ++ [(email, false, message)])
    end
  end.

Definition process_email_list (self : EmailValidator)
    (email_list : list pyval) (min_delay max_delay : Q)
  : M (list verification) :=
  process_loop self min_delay max_delay (length email_list) 1 email_list [].

End Program.

(** ** DataFrame operations used by the spreadsheet glue *)

(** [name in df.columns] and [df[name]] *)
Fixpoint df_lookup (name : string) (cols : list (string * list cell))
  : option (list cell) :=
  match cols with
  | [] => None
  | (k, v) :: rest => if String.eqb k name then Some v else df_lookup name rest
  end.

(** [Series.dropna()] *)
Fixpoint dropna (col : list cell) : list pyval :=
  match col with
  | [] => []
  | None :: rest => dropna rest
  | Some v :: rest => v :: dropna rest
  end.

(** [Series.astype(str).tolist()] on an object column *)
Definition astype_str (col : list pyval) : list pyval :=
  map (fun v => PyStr (py_str v)) col.

Fixpoint df_replace (name : string) (values : list cell)
    (cols : list (string * list cell)) : list (string * list cell) :=
  match cols with
  | [] => [(name, values)]
  | (k, v) :: rest =>
    if String.eqb k name then (k, values) :: rest
    else (k, v) :: df_replace name values rest
  end.

(** [df[name] = values] for a Python list.  A frame with an empty index
    takes the length of a non-empty list as its new index and pads the
    other columns with missing values; otherwise the lengths must
    agree. *)
Definition df_setitem (df : DataFrame) (name : string) (values : list pyval)
  : M DataFrame :=
  let n := length values in
  if ((df_index df =? 0) && negb (n =? 0))%nat then
    ret (mkDF n (df_replace name (map Some values)
                   (map (fun c => (fst c, repeat None n)) (df_columns df))))
  else if (n =? df_index df)%nat then
    ret (mkDF (df_index df) (df_replace name (map Some values) (df_columns df)))
  else
    raise (mkExn ValueError
      ("Length of values (" +++ str_of_nat n
       +++ ") does not match length of index (" +++ str_of_nat (df_index df)
       +++ ")")).

(** ** class ExcelHandler and [main] *)

Section Glue.

Variable W : World.

Definition read_emails_from_excel (file_path email_column_name : string)
  : M (list pyval * option DataFrame) :=
  try_except
    (df <- call (fun h => read_excel W h file_path) (EvReadExcel file_path) ;;
     match df_lookup email_column_name (df_columns df) with
     | None =>
       logging ERROR ("Column '" +++ email_column_name
                      +++ "' not found in Excel file") ;;
       ret ([], None)
     | Some column =>
       let emails := astype_str (dropna column) in
       logging INFO ("Successfully read " +++ str_of_nat (length emails)
                     +++ " emails from " +++ file_path) ;;
       ret (emails, Some df)
     end)
    (fun e =>
     if isinstance_exn e FileNotFoundError then
       logging ERROR ("Excel file not found: " +++ file_path) ;;
       ret ([], None)
     else
       logging ERROR ("Error reading Excel file: " +++ exn_msg e) ;;
       ret ([], None)).

Definition write_results_to_excel (df : DataFrame) (output_file_path : string)
  : M bool :=
  try_except
    (call (fun h => to_excel W h df output_file_path)
          (EvToExcel output_file_path df) ;;
     logging INFO ("Results written to Excel file: " +++ output_file_path) ;;
     ret true)
    (fun e =>
     logging ERROR ("Error writing to Excel file: " +++ exn_msg e) ;;
     ret false).

Definition INPUT_FILE : string := "input_emails.xlsx".
Definition EMAIL_COLUMN : string := "Email".
Definition OUTPUT_FILE : string := "verified_emails.xlsx".

(** Number of [True] entries, [sum(validation_status)]. *)
Definition count_true (l : list bool) : nat := length (filter id l).

Definition main : M unit :=
  (* Initialize validator *)
  validator <- EmailValidator_init "email_verification.log" 0 ;;
  print "Starting email validation process..." ;;
  (* Read emails from Excel file *)
  '(emails, df) <- read_emails_from_excel INPUT_FILE EMAIL_COLUMN ;;
  match emails, df with
  | [], _ | _, None =>
    print "No emails to process. Please check your input file and column name." ;;
    logging ERROR "No emails to process."
  | _ :: _, Some df =>
    print ("Found " +++ str_of_nat (length emails) +++ " emails to validate.") ;;
    (* Process the email list *)
    verification_results <- process_email_list W validator emails 1 5 ;;
    (* Add validation results to DataFrame *)
    let validation_status := map (fun r => snd (fst r)) verification_results in
    let validation_messages := map (fun r => snd r) verification_results in
    df <- df_setitem df "Is_Valid" (map PyBool validation_status) ;;
    df <- df_setitem df "Validation_Message" (map PyStr validation_messages) ;;
    (* Write results to Excel *)
    saved <- write_results_to_excel df OUTPUT_FILE ;;
    (if saved : bool then
       print ("Validation complete! Results saved to " +++ OUTPUT_FILE)
     else print "Error saving results to Excel file.") ;;
    (* Print summary *)
    emit (EvPrintSummary (count_true validation_status)
                         (length validation_status))
  end.

End Glue.

(** ** Vocabulary for traces and runs *)

(** A run whose events come after the events [d0]. *)
Definition prepend {A} (d0 : list event) (run : result A * list event)
  : result A * list event :=
  (fst run, d0 ++ snd run).

(** The value [random.uniform(a, b)] takes when called after [h]. *)
Definition delay_at (W : World) (a b : Q) (h : history) : Q :=
  (a + (b - a) * (Z.of_N (random_bits W h mod 2 ^ 53) # 2 ^ 53))%Q.

(** What [time.sleep] raises on a negative duration. *)
Definition sleep_error : exn :=
  mkExn ValueError "sleep length must be non-negative".

(** What [time.sleep] raises on a duration too large to convert. *)
Definition overflow_error : exn :=
  mkExn OverflowError "timestamp too large to convert to C _PyTime_t".

(** The exception [time.sleep] answers a duration with, if any. *)
Definition sleep_refusal (secs : Q) : option exn :=
  if negb (fits_pytime secs) then Some overflow_error
  else if Qle_bool 0 secs then None
  else Some sleep_error.

(** A whole number of seconds that [time.sleep] still converts: 2^63
    nanoseconds are a little more than 9223372036 seconds. *)
Definition sleep_limit : Q := 9223372036.

(** The pause after item [i], taken once [h] has happened. *)
Definition pause_after (W : World) (min_delay max_delay : Q) (total i : nat)
    (h : history) : list event :=
  if (i <? total)%nat then
    let q := delay_at W min_delay max_delay h in
    [EvUniform min_delay max_delay q; EvSleep q]
  else [].

(** The call ended in an exception. *)
Definition raised {A} (r : result A) : bool :=
  match r with Ok _ => false | Raise _ => true end.


(** Events the probe of one address can add. *)
Definition probe_event (ev : event) : bool :=
  match ev with
  | EvValidate _ _ | EvResolve _ _ _ | EvLog _ _ | EvConnect _ _ _
  | EvSetDebuglevel _ | EvHelo _ | EvMail _ _ | EvRcpt _ _ | EvExit _ => true
  | _ => false
  end.



(** The first component of every result tuple. *)
Definition addresses (res : list verification) : list pyval :=
  map (fun r => fst (fst r)) res.

(** The event is a [DataFrame.to_excel] call. *)
Definition is_to_excel (ev : event) : bool :=
  match ev with EvToExcel _ _ _ => true | _ => false end.

Section RunRelation.

Variables (W : World) (self : EmailValidator) (min_delay max_delay : Q).
Variable total : nat.

(** [loop_run i items h res d]: iterating over [items], the first of
    which has index [i], after history [h], appends [res] to the results
    and [d] to the history. *)
Inductive loop_run : nat -> list pyval -> history -> list verification ->
                     list event -> Prop :=
| run_done : forall i h, loop_run i [] h [] []
| run_skip : forall i email rest h res d,
    isinstance_str email = false ->
    let warn := EvLog WARNING (warning_line email "Invalid email type") in
    loop_run (S i) rest (h ++ [warn]) res d ->
    loop_run i (email :: rest) h
      ((email, false, "Invalid email type") :: res) (warn :: d)
| run_probe : forall i address rest h is_valid message dv res d,
    verify_email W self address h = (Ok (is_valid, message), dv) ->
    let line := progress_line i total (PyStr address) is_valid message in
    let seen := dv ++ [EvLog INFO line; EvPrint line] in
    let pause := pause_after W min_delay max_delay total i (h ++ seen) in
    loop_run (S i) rest (h ++ seen ++ pause) res d ->
    loop_run i (PyStr address :: rest) h
      ((PyStr address, is_valid, message) :: res) (seen ++ pause ++ d).

End RunRelation.

(** ** Sample worlds for concrete runs *)

(** The bytes of an ASCII reply text. *)
Definition text (s : string) : list byte := list_byte_of_string s.

(** A world in which every address is well formed, every domain has the
    two given MX records, every SMTP step succeeds, the recipient check
    answers [rcpt_reply] and closing the session ends as [quit]. *)
Definition sample_world (rcpt_reply : reply) (quit : result unit)
    (sheet : result DataFrame) : World :=
  {| validate_email := fun _ email => Ok email;
     dns_resolve := fun _ _ _ =>
       Ok [mkMX 20 "mx2.example.org."; mkMX 10 "mx1.example.org."];
     smtp_connect := fun _ _ _ => Ok tt;
     smtp_helo := fun _ => Ok (250%Z, text "mx2.example.org");
     smtp_mail := fun _ _ => Ok (250%Z, text "2.1.0 Ok");
     smtp_rcpt := fun _ _ => Ok rcpt_reply;
     smtp_exit := fun _ => quit;
     random_bits := fun h => N.of_nat (length h);
     read_excel := fun _ _ => sheet;
     to_excel := fun _ _ _ => Ok tt |}.

Definition no_sheet : result DataFrame :=
  Raise (mkExn FileNotFoundError "[Errno 2] No such file or directory").

Definition accepting_world : World :=
  sample_world (250%Z, text "2.1.5 Ok") (Ok tt) no_sheet.

(** Like [accepting_world], but no address passes the format check. *)
Definition strict_world : World :=
  {| validate_email := fun _ _ =>
       Raise (mkExn EmailSyntaxError "An email address must have an @-sign.");
     dns_resolve := dns_resolve accepting_world;
     smtp_connect := smtp_connect accepting_world;
     smtp_helo := smtp_helo accepting_world;
     smtp_mail := smtp_mail accepting_world;
     smtp_rcpt := smtp_rcpt accepting_world;
     smtp_exit := smtp_exit accepting_world;
     random_bits := random_bits accepting_world;
     read_excel := read_excel accepting_world;
     to_excel := to_excel accepting_world |}.

Definition default_validator : EmailValidator :=
  mkEmailValidator "email_verification.log" 0 "verification@example.com".

(** A server that answers the recipient check with code 550 and a text
    that is not UTF-8. *)
Definition latin1_world : World :=
  sample_world (550%Z, [xff]) (Ok tt) no_sheet.

(** A server that accepts the recipient and then answers QUIT with 421, so
    that leaving the [with] block raises. *)
Definition rude_world : World :=
  sample_world (250%Z, text "2.1.5 Ok")
    (Raise (mkExn SMTPResponseException "(421, b'closing')")) no_sheet.

(** A sheet of three rows whose second row has no address. *)
Definition gappy_sheet : DataFrame :=
  mkDF 3
    [("Name", [Some (PyStr "Bob"); Some (PyStr "Cy"); Some (PyStr "Amy")]);
     ("Email", [Some (PyStr "bob@example.org"); None;
                Some (PyStr "amy@example.org")])].

Definition gappy_world : World :=
  sample_world (250%Z, text "2.1.5 Ok") (Ok tt) (Ok gappy_sheet).

(** ** Further vocabulary *)


(** Events that reach the network: the MX lookup and every SMTP step. *)
Definition network_event (ev : event) : bool :=
  match ev with
  | EvResolve _ _ _ | EvConnect _ _ _ | EvHelo _ | EvMail _ _ | EvRcpt _ _
  | EvExit _ => true
  | _ => false
  end.

(** Events of an SMTP session. *)
Definition smtp_event (ev : event) : bool :=
  match ev with
  | EvConnect _ _ _ | EvSetDebuglevel _ | EvHelo _ | EvMail _ _ | EvRcpt _ _
  | EvExit _ => true
  | _ => false
  end.

Definition is_exit (ev : event) : bool :=
  match ev with EvExit _ => true | _ => false end.

(** Number of occurrences of a character, [s.count(c)]. *)
Fixpoint count_char (c : ascii) (s : string) : nat :=
  match s with
  | EmptyString => 0
  | String x s' => (if Ascii.eqb x c then 1 else 0) + count_char c s'
  end.

(** The lookup gave [get_mx_record] nothing to return: it raised, it
    returned no record, or the first exchange renders as the empty
    string. *)
Definition mx_missing (answer : result (list mx_rdata)) : bool :=
  match answer with
  | Ok (first :: _) =>
    match mx_exchange first with EmptyString => true | _ => false end
  | _ => true
  end.

(** What [except SMTPConnectError / SMTPServerDisconnected / Exception]
    of [verify_email] makes of an exception. *)
Definition failure_message (e : exn) : string :=
  if isinstance_exn e SMTPConnectError then
    "SMTP connection error: " +++ exn_msg e
  else if isinstance_exn e SMTPServerDisconnected then
    "SMTP server disconnected: " +++ exn_msg e
  else "Error during verification: " +++ exn_msg e.

(** The sheet gives [main] nothing to work on: it cannot be read, it has
    no e-mail column, or every cell of that column is missing. *)
Definition sheet_unusable (sheet : result DataFrame) : Prop :=
  match sheet with
  | Raise _ => True
  | Ok df =>
    match df_lookup EMAIL_COLUMN (df_columns df) with
    | None => True
    | Some column => dropna column = []
    end
  end.

(** The flags and the messages of a batch, as [main] extracts them. *)
Definition statuses (res : list verification) : list bool :=
  map (fun r => snd (fst r)) res.

Definition messages (res : list verification) : list string :=
  map (fun r => snd r) res.

(** The two column assignments of [main], which neither read the history
    nor add events. *)
Definition annotated (df : DataFrame) (res : list verification)
  : result DataFrame :=
  match fst (df_setitem df "Is_Valid" (map PyBool (statuses res)) []) with
  | Ok df1 =>
    fst (df_setitem df1 "Validation_Message" (map PyStr (messages res)) [])
  | Raise e => Raise e
  end.

(** A world built from the answers of its collaborators. *)
Definition staged_world (checked : string -> result string)
    (mx : result (list mx_rdata)) (connected : result unit)
    (greeted : result reply) (rcpt_reply : result reply) (quit : result unit)
    (sheet : result DataFrame) (saved : result unit) : World :=
  {| validate_email := fun _ email => checked email;
     dns_resolve := fun _ _ _ => mx;
     smtp_connect := fun _ _ _ => connected;
     smtp_helo := fun _ => greeted;
     smtp_mail := fun _ _ => Ok (250%Z, text "2.1.0 Ok");
     smtp_rcpt := fun _ _ => rcpt_reply;
     smtp_exit := fun _ => quit;
     random_bits := fun h => N.of_nat (length h);
     read_excel := fun _ _ => sheet;
     to_excel := fun _ _ _ => saved |}.

Definition one_mx : result (list mx_rdata) := Ok [mkMX 10 "mx.example.org."].

Definition greeting : result reply := Ok (250%Z, text "mx.example.org").

(** The domain does not exist. *)
Definition nxdomain_world : World :=
  staged_world Ok
    (Raise (mkExn DNSException
              "The DNS query name does not exist: example.invalid."))
    (Ok tt) greeting (Ok (250%Z, text "2.1.5 Ok")) (Ok tt) no_sheet (Ok tt).

(** The mail host answers the connection with a code other than 220. *)
Definition refusing_world : World :=
  staged_world Ok one_mx
    (Raise (mkExn SMTPConnectError "(554, b'No SMTP service here')"))
    greeting (Ok (250%Z, text "2.1.5 Ok")) (Ok tt) no_sheet (Ok tt).

(** The mail host drops the connection on HELO. *)
Definition dropping_world : World :=
  staged_world Ok one_mx (Ok tt)
    (Raise (mkExn SMTPServerDisconnected "Connection unexpectedly closed"))
    (Ok (250%Z, text "2.1.5 Ok")) (Ok tt) no_sheet (Ok tt).

(** A sheet of two rows with both addresses present. *)
Definition full_sheet : DataFrame :=
  mkDF 2
    [("Name", [Some (PyStr "Bob"); Some (PyStr "Amy")]);
     ("Email", [Some (PyStr "bob@example.org"); Some (PyStr "amy@example.org")])].

Definition full_world : World :=
  staged_world Ok one_mx (Ok tt) greeting (Ok (250%Z, text "2.1.5 Ok"))
    (Ok tt) (Ok full_sheet) (Ok tt).

(** A sheet without the e-mail column. *)
Definition other_sheet : DataFrame :=
  mkDF 1 [("Name", [Some (PyStr "Bob")])].

Definition other_world : World :=
  staged_world Ok one_mx (Ok tt) greeting (Ok (250%Z, text "2.1.5 Ok"))
    (Ok tt) (Ok other_sheet) (Ok tt).


(** The events of [main] before it looks at the sheet. *)
Definition main_prologue : list event :=
  [EvBasicConfig "email_verification.log";
   EvPrint "Starting email validation process..."].

(** The events of [main] once the annotated frame [df'] is ready. *)
Definition main_epilogue (W : World) (h : history) (df' : DataFrame)
    (res : list verification) : list event :=
  let saved := to_excel W h df' OUTPUT_FILE in
  [EvToExcel OUTPUT_FILE df' saved;
   EvLog (if raised saved then ERROR else INFO)
     match saved with
     | Ok _ => "Results written to Excel file: " +++ OUTPUT_FILE
     | Raise e => "Error writing to Excel file: " +++ exn_msg e
     end;
   EvPrint (if raised saved then "Error saving results to Excel file."
            else "Validation complete! Results saved to " +++ OUTPUT_FILE);
   EvPrintSummary (count_true (statuses res)) (length (statuses res))].

(** A computation whose outcome does not depend on what happened
    before. *)
Definition history_free {A} (m : M A) : Prop :=
  forall h1 h2 : history, m h1 = m h2.

(** A world of deterministic collaborators: every oracle answers from its
    arguments alone. *)
Definition history_blind (W : World) : Prop :=
  (forall h1 h2 email, validate_email W h1 email = validate_email W h2 email) /\
  (forall h1 h2 domain rdtype,
     dns_resolve W h1 domain rdtype = dns_resolve W h2 domain rdtype) /\
  (forall h1 h2 host timeout,
     smtp_connect W h1 host timeout = smtp_connect W h2 host timeout) /\
  (forall h1 h2, smtp_helo W h1 = smtp_helo W h2) /\
  (forall h1 h2 sender, smtp_mail W h1 sender = smtp_mail W h2 sender) /\
  (forall h1 h2 recip, smtp_rcpt W h1 recip = smtp_rcpt W h2 recip) /\
  (forall h1 h2, smtp_exit W h1 = smtp_exit W h2) /\
  (forall h1 h2, random_bits W h1 = random_bits W h2) /\
  (forall h1 h2 path, read_excel W h1 path = read_excel W h2 path) /\
  (forall h1 h2 df path, to_excel W h1 df path = to_excel W h2 df path).

(** Deterministic fakes: fixed answers and a fixed random draw. *)
Definition fake_world : World :=
  {| validate_email := fun _ email => Ok email;
     dns_resolve := fun _ _ _ => one_mx;
     smtp_connect := fun _ _ _ => Ok tt;
     smtp_helo := fun _ => greeting;
     smtp_mail := fun _ _ => Ok (250%Z, text "2.1.0 Ok");
     smtp_rcpt := fun _ _ => Ok (550%Z, text "5.1.1 User unknown");
     smtp_exit := fun _ => Ok tt;
     random_bits := fun _ => 4503599627370496%N;
     read_excel := fun _ _ => Ok full_sheet;
     to_excel := fun _ _ _ => Ok tt |}.

(** The format check went to the network: [validate_email] ended in
    [EmailUndeliverableError], which the library raises from its
    deliverability check, a DNS lookup of the domain that is on by
    default. *)
Definition format_check_resolved (ev : event) : bool :=
  match ev with
  | EvValidate _ (Raise e) => isinstance_exn e EmailUndeliverableError
  | _ => false
  end.

(** The library finds no such domain. *)
Definition undeliverable_world : World :=
  staged_world
    (fun _ => Raise (mkExn EmailUndeliverableError
                       "The domain name nowhere-registered.com does not exist."))
    one_mx (Ok tt) greeting (Ok (250%Z, text "2.1.5 Ok")) (Ok tt) no_sheet
    (Ok tt).

(** ** Proof automation *)

Ltac unfold_m :=
  unfold try_except_as, try_except, with_SMTP, bind, call, lift, getitem,
    unpack2, logging, print, emit, ret, raise in *.

(** Case analysis on the next scrutinee that is not itself a [match]. *)
Ltac case_step :=
  match goal with
  | |- context [match ?x with _ => _ end] =>
    lazymatch x with
    | context [match _ with _ => _ end] => fail
    | _ => destruct x eqn:?
    end
  end.

Ltac split_run Hrun :=
  let Hr := fresh "Hr" in
  let Hd := fresh "Hd" in
  pose proof (f_equal fst Hrun) as Hr;
  pose proof (f_equal snd Hrun) as Hd;
  cbn [fst snd] in Hr, Hd; clear Hrun;
  match type of Hr with _ = ?r => subst r end;
  match type of Hd with _ = ?d => subst d end.

Ltac in_events :=
  repeat match goal with
  | H : In _ (_ :: _) |- _ => destruct H as [H|H]
  | H : In _ [] |- _ => destruct H
  | H : In _ (_ ++ _) |- _ => apply in_app_or in H; destruct H as [H|H]
  | H : _ = _ :> event |- _ => (discriminate H || (injection H as ?; subst))
  end.

(** * Properties *)

(** ** The DNS resolver stage *)

(** C6: whatever the resolver answers, [get_mx_record] returns normally:
    the exchange of the first record when there is one, [None] when the
    lookup raises or yields nothing.  It performs exactly one lookup
    (the first event it adds) followed by one log line. *)
Theorem get_mx_record_first_or_none :
  forall (W : World) (self : EmailValidator) (domain : string) (h : history),
  exists lvl line,
    get_mx_record W self domain h =
      (Ok match dns_resolve W h domain "MX" with
          | Ok (first :: _) => Some (mx_exchange first)
          | _ => None
          end,
       [EvResolve domain "MX" (dns_resolve W h domain "MX"); EvLog lvl line]).
Proof.
  intros W self domain h.
  unfold get_mx_record, try_except, bind, call, getitem, logging, emit, ret, raise.
  destruct (dns_resolve W h domain "MX") as [[|first rest]|e]; cbn;
    eexists; eexists; reflexivity.
Qed.

(** ** The probe *)

(** C5 (as amended): when [validate_email] rejects the address with
    [EmailNotValidError], be it a syntax error or, under the library's
    default deliverability check, an undeliverable domain,
    [verify_email] returns [False] with the message
    ["Invalid email format: <reason>"], and the only thing it has done is
    that one call: [get_mx_record] is not called, no SMTP session is
    opened, not even a log line is written. *)
Theorem verify_email_invalid_format :
  forall (W : World) (self : EmailValidator) (email : string) (h : history)
         (e : exn),
    validate_email W h email = Raise e ->
    isinstance_exn e EmailNotValidError = true ->
    verify_email W self email h =
      (Ok (false, "Invalid email format: " +++ exn_msg e),
       [EvValidate email (Raise e)]).
Proof.
  intros W self email h e Hv He.
  unfold verify_email. unfold_m.
  rewrite Hv, He. reflexivity.
Qed.

Lemma verify_email_total :
  forall (W : World) (self : EmailValidator) (email : string) (h : history),
  exists is_valid message d,
    verify_email W self email h = (Ok (is_valid, message), d).
Proof.
  intros W self email h.
  unfold verify_email, get_mx_record. unfold_m.
  repeat (cbn; case_step); cbn; eauto.
Qed.

(** ** The batch loop, one iteration at a time *)

Lemma prepend_prepend {A} (d1 d2 : list event) (run : result A * list event) :
  prepend d1 (prepend d2 run) = prepend (d1 ++ d2) run.
Proof. unfold prepend; cbn. now rewrite app_assoc. Qed.

Lemma bind_ok {A B} (m : M A) (f : A -> M B) h a d :
  m h = (Ok a, d) -> bind m f h = prepend d (f a (h ++ d)).
Proof.
  intros Hm. unfold bind, prepend. rewrite Hm.
  now destruct (f a (h ++ d)).
Qed.

Lemma bind_raise {A B} (m : M A) (f : A -> M B) h e d :
  m h = (Raise e, d) -> bind m f h = (Raise e, d).
Proof. intros Hm. unfold bind. now rewrite Hm. Qed.

Lemma random_uniform_run W a b h :
  random_uniform W a b h =
    (Ok (delay_at W a b h), [EvUniform a b (delay_at W a b h)]).
Proof. reflexivity. Qed.

Lemma process_loop_skip :
  forall W self min_delay max_delay total i email rest results h,
    isinstance_str email = false ->
    process_loop W self min_delay max_delay total i (email :: rest) results h =
    prepend [EvLog WARNING (warning_line email "Invalid email type")]
      (process_loop W self min_delay max_delay total (S i) rest
         (results ++ [(email, false, "Invalid email type")])
         (h ++ [EvLog WARNING (warning_line email "Invalid email type")])).
Proof.
  intros. destruct email; try discriminate; cbn [process_loop];
    now erewrite bind_ok by reflexivity.
Qed.

Lemma time_sleep_run (secs : Q) (h : history) :
  time_sleep secs h =
    match sleep_refusal secs with
    | None => (Ok tt, [EvSleep secs])
    | Some e => (Raise e, [])
    end.
Proof.
  unfold time_sleep, sleep_refusal.
  destruct (negb (fits_pytime secs)); [reflexivity|].
  destruct (Qle_bool 0 secs); reflexivity.
Qed.

Lemma process_loop_probe :
  forall W self min_delay max_delay total i address rest results h,
  exists is_valid message dv,
    verify_email W self address h = (Ok (is_valid, message), dv) /\
    let line := progress_line i total (PyStr address) is_valid message in
    let seen := dv ++ [EvLog INFO line; EvPrint line] in
    let results' := results ++ [(PyStr address, is_valid, message)] in
    process_loop W self min_delay max_delay total i (PyStr address :: rest)
      results h =
    if (i <? total)%nat then
      let d := delay_at W min_delay max_delay (h ++ seen) in
      match sleep_refusal d with
      | None =>
        prepend (seen ++ [EvUniform min_delay max_delay d; EvSleep d])
          (process_loop W self min_delay max_delay total (S i) rest results'
             (h ++ seen ++ [EvUniform min_delay max_delay d; EvSleep d]))
      | Some e => (Raise e, seen ++ [EvUniform min_delay max_delay d])
      end
    else
      prepend seen
        (process_loop W self min_delay max_delay total (S i) rest results'
           (h ++ seen)).
Proof.
  intros.
  destruct (verify_email_total W self address h) as (v & m & dv & Hv).
  exists v, m, dv. split; [exact Hv|].
  cbn zeta. cbn [process_loop].
  rewrite (bind_ok _ _ _ _ _ Hv).
  erewrite (bind_ok _ _ (h ++ dv) tt) by reflexivity.
  erewrite (bind_ok _ _ ((h ++ dv) ++ _) tt) by reflexivity.
  repeat rewrite prepend_prepend.
  repeat rewrite <- app_assoc. cbn [app].
  destruct (i <? total)%nat.
  - set (h1 := h ++ dv ++ _).
    destruct (sleep_refusal (delay_at W min_delay max_delay h1)) as [e|] eqn:Hd.
    + erewrite (bind_raise _ _ h1).
      2:{ erewrite bind_ok by apply random_uniform_run.
          rewrite time_sleep_run, Hd. reflexivity. }
      unfold prepend; cbn. repeat rewrite <- app_assoc. reflexivity.
    + erewrite (bind_ok _ _ h1 tt).
      2:{ erewrite bind_ok by apply random_uniform_run.
          rewrite time_sleep_run, Hd. reflexivity. }
      rewrite prepend_prepend. cbn [app].
      subst h1. repeat rewrite <- app_assoc. cbn [app]. reflexivity.
  - rewrite (bind_ok _ _ _ tt []) by reflexivity.
    rewrite prepend_prepend. repeat rewrite app_nil_r.
    repeat rewrite <- app_assoc. reflexivity.
Qed.

(** ** Delays *)

Lemma random_unit_interval (k : N) :
  (0 <= Z.of_N (k mod 2 ^ 53) # 2 ^ 53)%Q /\
  (Z.of_N (k mod 2 ^ 53) # 2 ^ 53 <= 1)%Q.
Proof.
  assert (Hlt : (k mod 2 ^ 53 < 2 ^ 53)%N) by (apply N.mod_lt; discriminate).
  apply N2Z.inj_lt in Hlt.
  change (Z.of_N (2 ^ 53)) with (Z.pos (2 ^ 53)) in Hlt.
  unfold Qle; cbn [Qnum Qden].
  generalize dependent (Z.pos (2 ^ 53)).
  generalize (N2Z.is_nonneg (k mod 2 ^ 53)).
  generalize (Z.of_N (k mod 2 ^ 53)). intros; lia.
Qed.


Lemma delay_at_nonneg W a b h :
  (0 <= a)%Q -> (0 <= b)%Q -> (0 <= delay_at W a b h)%Q.
Proof.
  intros Ha Hb. unfold delay_at.
  destruct (random_unit_interval (random_bits W h)) as [H0 H1].
  set (u := (Z.of_N (random_bits W h mod 2 ^ 53) # 2 ^ 53)%Q) in *.
  nra.
Qed.

Lemma delay_at_below W a b h (limit : Q) :
  (a <= limit)%Q -> (b <= limit)%Q -> (delay_at W a b h <= limit)%Q.
Proof.
  intros Ha Hb. unfold delay_at.
  destruct (random_unit_interval (random_bits W h)) as [H0 H1].
  set (u := (Z.of_N (random_bits W h mod 2 ^ 53) # 2 ^ 53)%Q) in *.
  nra.
Qed.

(** A duration between zero and [sleep_limit] is slept. *)
Lemma sleep_refusal_in_range (secs : Q) :
  (0 <= secs)%Q -> (secs <= sleep_limit)%Q -> sleep_refusal secs = None.
Proof.
  intros H0 Hmax. unfold sleep_refusal, fits_pytime, pytime_ns.
  assert (Hpos : Qle_bool 0 secs = true) by now apply Qle_bool_iff.
  rewrite Hpos.
  assert (Hlo : (0 <= Qceiling (secs * 1000000000))%Z).
  { change 0%Z with (Qceiling 0). apply Qceiling_resp_le. nra. }
  assert (Hhi : (Qceiling (secs * 1000000000) <= 9223372036000000000)%Z).
  { rewrite <- (Qceiling_Z 9223372036000000000). apply Qceiling_resp_le.
    unfold sleep_limit in Hmax.
    setoid_replace (inject_Z 9223372036000000000)
      with (9223372036 * 1000000000)%Q by reflexivity.
    nra. }
  replace (- 2 ^ 63 <=? Qceiling (secs * 1000000000))%Z with true
    by (symmetry; apply Z.leb_le; lia).
  replace (Qceiling (secs * 1000000000) <? 2 ^ 63)%Z with true
    by (symmetry; apply Z.ltb_lt; lia).
  reflexivity.
Qed.


(** ** Substrings *)

Lemma prefix_append (s t : string) : String.prefix s (s +++ t) = true.
Proof.
  induction s as [|c s IH]; cbn.
  - now destruct t.
  - destruct (ascii_dec c c) as [_|Hc]; [exact IH | now elim Hc].
Qed.

Lemma str_contains_prefix (sub s : string) :
  String.prefix sub s = true -> str_contains sub s = true.
Proof. intros H. destruct s; cbn [str_contains]; now rewrite H. Qed.

Lemma str_contains_here (sub post : string) :
  str_contains sub (sub +++ post) = true.
Proof. apply str_contains_prefix, prefix_append. Qed.

Lemma str_contains_append (sub pre s : string) :
  str_contains sub s = true -> str_contains sub (pre +++ s) = true.
Proof.
  intros Hs. induction pre as [|c pre IH]; cbn; [exact Hs|].
  cbn in IH. rewrite IH. apply orb_true_r.
Qed.

Lemma str_contains_middle (sub pre post : string) :
  str_contains sub (pre +++ sub +++ post) = true.
Proof. apply str_contains_append, str_contains_here. Qed.

Lemma str_contains_end (sub pre : string) :
  str_contains sub (pre +++ sub) = true.
Proof.
  apply str_contains_append, str_contains_prefix.
  induction sub as [|c sub IH]; [reflexivity|].
  cbn. destruct (ascii_dec c c) as [_|Hc]; [exact IH | now elim Hc].
Qed.

(** ** What the recipient check decides *)

(** What the recipient check decides when nothing else goes wrong: once
    it has answered with a code and the SMTP session has been closed
    without error, code 250 gives
    [(True, "Email address is valid")]; any other code gives [False],
    and when the reply text is valid UTF-8 the message is
    ["Server response: <code> <text>"], which contains both the code and
    the text. *)
Theorem verify_email_rcpt_decides :
  forall (W : World) (self : EmailValidator) (email : string) (h : history)
         (r : result (bool * string)) (d : list event)
         (recip : string) (code : Z) (message : list byte),
    verify_email W self email h = (r, d) ->
    In (EvRcpt recip (Ok (code, message))) d ->
    In (EvExit (Ok tt)) d ->
    (code = 250%Z -> r = Ok (true, "Email address is valid")) /\
    (code <> 250%Z ->
     exists m, r = Ok (false, m) /\
       forall text, decode_utf8 message = Ok text ->
         m = "Server response: " +++ str_of_Z code +++ " " +++ text /\
         str_contains (str_of_Z code) m = true /\
         str_contains text m = true).
Proof.
  intros W self email h r d recip code message Hrun.
  split_run Hrun.
  unfold verify_email, get_mx_record. unfold_m.
  repeat (cbn [fst snd app]; case_step); cbn [fst snd app];
    intros Hrcpt Hexit; in_events.
  all: split; intros Hcode.
  all: try (subst; discriminate).
  all: try lia.
  all: try reflexivity.
  all: eexists; split; [reflexivity|]; intros text' Htext.
  all: match goal with
       | H : decode_utf8 _ = _ |- _ =>
         rewrite Htext in H; (discriminate H || injection H as ->)
       end.
  all: split; [reflexivity|]; split.
  all: try apply str_contains_middle.
  all: do 2 apply str_contains_append; apply str_contains_end.
Qed.

(** ** No per-address error escapes *)








(** ** The batch loop as a run relation *)

Lemma verify_email_events :
  forall W self email h r d,
    verify_email W self email h = (r, d) -> forallb probe_event d = true.
Proof.
  intros W self email h r d Hrun. split_run Hrun.
  unfold verify_email, get_mx_record. unfold_m.
  repeat (cbn [fst snd app]; case_step); reflexivity.
Qed.

Section Runs.

Variables (W : World) (self : EmailValidator) (min_delay max_delay : Q).
Variable total : nat.

Hypothesis min_delay_nonneg : (0 <= min_delay)%Q.
Hypothesis max_delay_nonneg : (0 <= max_delay)%Q.
Hypothesis min_delay_fits : (min_delay <= sleep_limit)%Q.
Hypothesis max_delay_fits : (max_delay <= sleep_limit)%Q.

(** With delay bounds between zero and [sleep_limit] the loop runs to its
    end. *)
Lemma process_loop_run :
  forall items i results h,
  exists res d,
    process_loop W self min_delay max_delay total i items results h =
      (Ok (results ++ res), d) /\
    loop_run W self min_delay max_delay total i items h res d.
Proof.
  induction items as [|email rest IH]; intros i results h.
  - exists [], []. rewrite app_nil_r. split; [reflexivity | constructor].
  - destruct (isinstance_str email) eqn:Hstr.
    + destruct email; try discriminate.
      destruct (process_loop_probe W self min_delay max_delay total i s rest
                  results h) as (v & m & dv & Hv & Hloop).
      cbn zeta in Hloop. rewrite Hloop; clear Hloop.
      set (line := progress_line i total (PyStr s) v m).
      set (seen := dv ++ [EvLog INFO line; EvPrint line]).
      pose (pause := pause_after W min_delay max_delay total i (h ++ seen)).
      destruct (IH (S i) (results ++ [(PyStr s, v, m)]) (h ++ seen ++ pause))
        as (res & d & Hrest & Hrun).
      exists ((PyStr s, v, m) :: res), (seen ++ pause ++ d).
      split.
      * subst pause. unfold pause_after in *.
        destruct (i <? total)%nat.
        -- cbn zeta in *.
           rewrite sleep_refusal_in_range
             by (first [apply delay_at_nonneg | apply delay_at_below];
                 assumption).
           unfold verification in *. rewrite Hrest. unfold prepend; cbn [fst snd].
           now rewrite <- !app_assoc.
        -- rewrite app_nil_r in Hrest.
           unfold verification in *. rewrite Hrest.
           unfold prepend; cbn [fst snd]. now rewrite <- !app_assoc.
      * eapply run_probe; eassumption.
    + rewrite process_loop_skip by exact Hstr.
      destruct (IH (S i) (results ++ [(email, false, "Invalid email type")])
                  (h ++ [EvLog WARNING (warning_line email "Invalid email type")]))
        as (res & d & Hrest & Hrun).
      exists ((email, false, "Invalid email type") :: res),
             (EvLog WARNING (warning_line email "Invalid email type") :: d).
      split.
      * unfold verification in *. rewrite Hrest.
        unfold prepend; cbn [fst snd app].
        now rewrite <- app_assoc.
      * now apply run_skip.
Qed.

End Runs.

(** ** Reading a trace *)





Section RunFacts.

Variables (W : World) (self : EmailValidator) (min_delay max_delay : Q).
Variable total : nat.

Local Abbreviation run := (loop_run W self min_delay max_delay total).

Lemma loop_run_addresses i items h res d :
  run i items h res d -> addresses res = items.
Proof.
  induction 1; cbn; [reflexivity | |]; f_equal; assumption.
Qed.






End RunFacts.

(** ** The batch as a whole *)














(** ** Configuration *)

(** C8 (as amended): the sender of MAIL FROM is the validator's
    [sender_email] attribute, and the constructor sets it to the fixed
    address ["verification@example.com"] whatever its two parameters,
    which are the log file path and the SMTP debug level.  [verify_email]
    takes the address to check and nothing else. *)
Theorem sender_email_fixed :
  forall (W : World),
    (forall log_file0 debug_level0 h,
       EmailValidator_init log_file0 debug_level0 h =
         (Ok (mkEmailValidator log_file0 debug_level0
                "verification@example.com"),
          [EvBasicConfig log_file0])) /\
    (forall self email h r d sender answer,
       verify_email W self email h = (r, d) ->
       In (EvMail sender answer) d ->
       sender = sender_email self).
Proof.
  intros W. split; [reflexivity|].
  intros self email h r d sender answer Hrun. split_run Hrun.
  unfold verify_email, get_mx_record. unfold_m.
  repeat (cbn [fst snd app]; case_step); cbn [fst snd app];
    intros Hin; in_events; reflexivity.
Qed.

Lemma sender_email_fixed_witness :
  "verification@example.com" = sender_email default_validator.
Proof.
  apply (proj2 (sender_email_fixed accepting_world) default_validator
           "bob@example.org" []
           (fst (verify_email accepting_world default_validator
                   "bob@example.org" []))
           (snd (verify_email accepting_world default_validator
                   "bob@example.org" []))
           "verification@example.com" (Ok (250%Z, text "2.1.0 Ok"))).
  - reflexivity.
  - vm_compute. do 6 right. left. reflexivity.
Defined.

(** The claim of C8 as written fails: no choice of constructor arguments
    yields a validator that probes with another sender address. *)
Lemma sender_email_not_a_parameter :
  ~ exists log_file0 debug_level0 h self d,
      EmailValidator_init log_file0 debug_level0 h = (Ok self, d) /\
      sender_email self = "postmaster@example.net".
Proof.
  intros (log_file0 & debug_level0 & h & self & d & Hinit & Hsender).
  cbv in Hinit. injection Hinit as <- _. discriminate Hsender.
Qed.

(** ** Concrete probes *)

(** The claim of C5 as written fails in its last clause.  The format
    stage is [validate_email(email)] with the library's defaults, and by
    default the library checks deliverability by resolving the domain.
    For the well-formed address [bob@nowhere-registered.com], whose
    domain does not resolve, it answers with [EmailUndeliverableError],
    an exception it raises only after that lookup, and [verify_email]
    reports an invalid format. *)
Lemma verify_email_format_check_resolves :
  verify_email undeliverable_world default_validator "bob@nowhere-registered.com" [] =
    (Ok (false,
         "Invalid email format: The domain name nowhere-registered.com does not exist."),
     [EvValidate "bob@nowhere-registered.com"
        (Raise (mkExn EmailUndeliverableError
                  "The domain name nowhere-registered.com does not exist."))]) /\
  existsb format_check_resolved
    (snd (verify_email undeliverable_world default_validator
            "bob@nowhere-registered.com" [])) = true /\
  count_char "@" "bob@nowhere-registered.com" = 1%nat.
Proof. repeat split; vm_compute; reflexivity. Qed.

Lemma verify_email_invalid_format_witness :
  verify_email strict_world default_validator "not-an-email" [] =
    (Ok (false, "Invalid email format: An email address must have an @-sign."),
     [EvValidate "not-an-email"
        (Raise (mkExn EmailSyntaxError
                  "An email address must have an @-sign."))]).
Proof.
  apply (verify_email_invalid_format strict_world default_validator
           "not-an-email" []
           (mkExn EmailSyntaxError "An email address must have an @-sign."));
    reflexivity.
Defined.

Lemma verify_email_rcpt_decides_witness :
  fst (verify_email accepting_world default_validator "bob@example.org" []) =
    Ok (true, "Email address is valid").
Proof.
  apply (proj1 (verify_email_rcpt_decides accepting_world default_validator
                  "bob@example.org" []
                  (fst (verify_email accepting_world default_validator
                          "bob@example.org" []))
                  (snd (verify_email accepting_world default_validator
                          "bob@example.org" []))
                  "bob@example.org" 250%Z (text "2.1.5 Ok")
                  eq_refl
                  ltac:(vm_compute; do 7 right; left; reflexivity)
                  ltac:(vm_compute; do 8 right; left; reflexivity))).
  reflexivity.
Defined.

(** C3: code 250 on the recipient check should give
    [(True, "Email address is valid")] and any other code [False] with a
    message holding the code and the server's text.  [verify_email] aims
    at this and misses it at two inputs.  A 550 reply whose text is not
    UTF-8 makes [message.decode('utf-8')] raise, and the message becomes
    that of the catch-all handler, with neither the code nor the text.  A
    250 reply followed by a QUIT that is not answered with 221 makes the
    exit of the [with] block raise, and the verdict becomes [False]. *)
Lemma verify_email_rcpt_not_decisive :
  (In (EvRcpt "bob@example.org" (Ok (550%Z, [xff])))
      (snd (verify_email latin1_world default_validator "bob@example.org" []))
   /\ fst (verify_email latin1_world default_validator "bob@example.org" []) =
        Ok (false,
            "Error during verification: 'utf-8' codec can't decode byte 0xff in position 0: invalid start byte")
   /\ str_contains "550"
        "Error during verification: 'utf-8' codec can't decode byte 0xff in position 0: invalid start byte"
      = false)
  /\
  (In (EvRcpt "bob@example.org" (Ok (250%Z, text "2.1.5 Ok")))
      (snd (verify_email rude_world default_validator "bob@example.org" []))
   /\ fst (verify_email rude_world default_validator "bob@example.org" []) =
        Ok (false, "Error during verification: (421, b'closing')")).
Proof.
  repeat split; vm_compute; try reflexivity; do 7 right; left; reflexivity.
Qed.

(** ** Spreadsheet glue *)

Lemma dropna_length (column : list cell) :
  (length (dropna column) <= length column)%nat.
Proof.
  induction column as [|[v|] rest IH]; cbn [dropna length]; lia.
Qed.

Lemma dropna_missing (column : list cell) :
  In None column -> (length (dropna column) < length column)%nat.
Proof.
  induction column as [|[v|] rest IH]; cbn [dropna length In].
  - intros [].
  - intros [H|H]; [discriminate H|]. specialize (IH H). lia.
  - intros _. pose proof (dropna_length rest). lia.
Qed.

Lemma dropna_present (column : list cell) (v : pyval) :
  In (Some v) column -> (0 < length (dropna column))%nat.
Proof.
  induction column as [|[w|] rest IH]; cbn [dropna length In].
  - intros [].
  - intros _. lia.
  - intros [H|H]; [discriminate H | exact (IH H)].
Qed.

Lemma df_lookup_in name cols column :
  df_lookup name cols = Some column -> exists k, In (k, column) cols.
Proof.
  induction cols as [|[k v] rest IH]; cbn [df_lookup]; [discriminate|].
  destruct (String.eqb k name).
  - intros H. injection H as ->. exists k. now left.
  - intros H. destruct (IH H) as (k' & Hin). exists k'. now right.
Qed.

Lemma read_emails_from_excel_run W file_path email_column_name h df column :
  read_excel W h file_path = Ok df ->
  df_lookup email_column_name (df_columns df) = Some column ->
  read_emails_from_excel W file_path email_column_name h =
    (Ok (astype_str (dropna column), Some df),
     [EvReadExcel file_path (Ok df);
      EvLog INFO ("Successfully read "
                  +++ str_of_nat (length (astype_str (dropna column)))
                  +++ " emails from " +++ file_path)]).
Proof.
  intros Hread Hcol. unfold read_emails_from_excel. unfold_m.
  rewrite Hread, Hcol. reflexivity.
Qed.

Lemma loop_run_no_to_excel W self min_delay max_delay total i items h res d :
  loop_run W self min_delay max_delay total i items h res d ->
  existsb is_to_excel d = false.
Proof.
  induction 1 as [i h | i email rest h res d Hstr warn Hrun IH
                 | i address rest h v m dv res d Hv line seen pause Hrun IH].
  - reflexivity.
  - exact IH.
  - rewrite !existsb_app, IH. subst seen. rewrite existsb_app.
    apply verify_email_events in Hv.
    assert (Hdv : existsb is_to_excel dv = false).
    { clear -Hv. induction dv as [|ev dv IHdv]; [reflexivity|].
      cbn [forallb existsb] in *. apply andb_true_iff in Hv as [Hev Hdv].
      rewrite (IHdv Hdv). now destruct ev. }
    rewrite Hdv. subst pause. unfold pause_after.
    now destruct (i <? total)%nat.
Qed.

(** C10: when the e-mail column of the sheet holds both a missing and a
    present value, [read_emails_from_excel] hands back fewer addresses
    than the frame has rows, together with the unchanged frame.  [main]
    then verifies every address it was given, and ends in the
    [ValueError] of the first column assignment: the trace up to there
    contains the complete batch and no [to_excel] call. *)
Theorem main_length_mismatch :
  forall (W : World) (h : history) (df : DataFrame) (column : list cell)
         (present : pyval),
    let h0 := h ++ [EvBasicConfig "email_verification.log";
                    EvPrint "Starting email validation process..."] in
    read_excel W h0 INPUT_FILE = Ok df ->
    df_wf df ->
    df_lookup EMAIL_COLUMN (df_columns df) = Some column ->
    In None column ->
    In (Some present) column ->
    exists emails d_read d_found results d_batch,
      read_emails_from_excel W INPUT_FILE EMAIL_COLUMN h0 =
        (Ok (emails, Some df), d_read) /\
      (length emails < df_index df)%nat /\
      process_email_list W default_validator emails 1 5
        (h0 ++ d_read ++ d_found) = (Ok results, d_batch) /\
      length results = length emails /\
      main W h =
        (Raise (mkExn ValueError
                  ("Length of values (" +++ str_of_nat (length emails)
                   +++ ") does not match length of index ("
                   +++ str_of_nat (df_index df) +++ ")")),
         [EvBasicConfig "email_verification.log";
          EvPrint "Starting email validation process..."]
         ++ d_read ++ d_found ++ d_batch) /\
      existsb is_to_excel (d_read ++ d_found ++ d_batch) = false.
Proof.
  intros W h df column present h0 Hread Hwf Hcol Hmissing Hpresent.
  pose proof (read_emails_from_excel_run W INPUT_FILE EMAIL_COLUMN h0 df
                column Hread Hcol) as Hemails.
  set (emails := astype_str (dropna column)) in *.
  assert (Hlen : length emails = length (dropna column))
    by (unfold emails, astype_str; apply length_map).
  assert (Hrows : length column = df_index df).
  { destruct (df_lookup_in _ _ _ Hcol) as (k & Hin).
    unfold df_wf in Hwf. rewrite Forall_forall in Hwf.
    exact (Hwf _ Hin). }
  pose proof (dropna_missing column Hmissing) as Hshort.
  pose proof (dropna_present column present Hpresent) as Hsome.
  clearbody emails.
  match type of Hemails with _ = (_, ?d) => set (d_read := d) in * end.
  set (d_found := [EvPrint ("Found " +++ str_of_nat (length emails)
                            +++ " emails to validate.")]).
  assert (H15 : (0 <= 1)%Q /\ (0 <= 5)%Q) by (split; discriminate).
  destruct H15 as [H1 H5].
  assert (Hfit : (1 <= sleep_limit)%Q /\ (5 <= sleep_limit)%Q)
    by (split; discriminate).
  destruct Hfit as [H1fit H5fit].
  destruct (process_loop_run W default_validator 1 5 (length emails) H1 H5
              H1fit H5fit
              emails 1 [] (h0 ++ d_read ++ d_found))
    as (results & d_batch & Hbatch & Hrel).
  cbn [app] in Hbatch.
  exists emails, d_read, d_found, results, d_batch.
  split; [exact Hemails|].
  split; [lia|].
  split; [exact Hbatch|].
  assert (Hres : length results = length emails).
  { pose proof (loop_run_addresses _ _ _ _ _ _ _ _ _ _ Hrel) as Haddr.
    transitivity (length (addresses results));
      [unfold addresses; now rewrite length_map | now rewrite Haddr]. }
  split; [exact Hres|].
  split.
  - unfold main.
    erewrite bind_ok by reflexivity.
    erewrite bind_ok by reflexivity.
    rewrite <- app_assoc. cbn [app log_file]. fold h0. clearbody h0.
    erewrite bind_ok by exact Hemails.
    destruct emails as [|e0 es]; [cbn in Hlen; lia|].
    cbv iota beta.
    erewrite bind_ok by reflexivity.
    rewrite <- !app_assoc.
    erewrite bind_ok by exact Hbatch.
    cbv zeta.
    erewrite bind_raise.
    2:{ unfold df_setitem, verification in *. rewrite !length_map, Hres.
        replace (df_index df =? 0)%nat with false
          by (symmetry; apply Nat.eqb_neq; lia).
        replace (length (e0 :: es) =? df_index df)%nat with false
          by (symmetry; apply Nat.eqb_neq; lia).
        reflexivity. }
    unfold prepend; cbn [fst snd app]. rewrite !app_nil_r. reflexivity.
  - rewrite !existsb_app.
    rewrite (loop_run_no_to_excel _ _ _ _ _ _ _ _ _ _ Hrel).
    reflexivity.
Qed.

Lemma main_length_mismatch_witness :
  exists emails d_read d_found results d_batch,
    read_emails_from_excel gappy_world INPUT_FILE EMAIL_COLUMN
      [EvBasicConfig "email_verification.log";
       EvPrint "Starting email validation process..."] =
      (Ok (emails, Some gappy_sheet), d_read) /\
    (length emails < 3)%nat /\
    process_email_list gappy_world default_validator emails 1 5
      ([EvBasicConfig "email_verification.log";
        EvPrint "Starting email validation process..."]
       ++ d_read ++ d_found) = (Ok results, d_batch) /\
    length results = length emails /\
    main gappy_world [] =
      (Raise (mkExn ValueError
                ("Length of values (" +++ str_of_nat (length emails)
                 +++ ") does not match length of index (" +++ str_of_nat 3
                 +++ ")")),
       [EvBasicConfig "email_verification.log";
        EvPrint "Starting email validation process..."]
       ++ d_read ++ d_found ++ d_batch) /\
    existsb is_to_excel (d_read ++ d_found ++ d_batch) = false.
Proof.
  apply (main_length_mismatch gappy_world [] gappy_sheet
           [Some (PyStr "bob@example.org"); None;
            Some (PyStr "amy@example.org")]
           (PyStr "bob@example.org")).
  - reflexivity.
  - repeat constructor.
  - reflexivity.
  - simpl. auto.
  - simpl. auto.
Defined.

(** ** The decoder has fuel to spare *)

Lemma utf8_head_progress (b : N) (t : list N) (n : nat) :
  utf8_head (b :: t) = inl n -> (1 <= n)%nat.
Proof.
  unfold utf8_head. intros H.
  repeat match type of H with
         | context [if ?c then _ else _] => destruct c
         | context [match ?l with [] => _ | _ :: _ => _ end] => destruct l
         end;
    inversion H; lia.
Qed.

Lemma utf8_scan_fuel (fuel fuel' pos : nat) (data : list N) :
  (length data < fuel)%nat -> (length data < fuel')%nat ->
  utf8_scan fuel pos data = utf8_scan fuel' pos data.
Proof.
  revert fuel' pos data.
  induction fuel as [|fuel IH]; intros fuel' pos data Hf Hf'; [lia|].
  destruct fuel' as [|fuel']; [lia|].
  destruct data as [|b t]; [reflexivity|].
  cbn [utf8_scan].
  destruct (utf8_head (b :: t)) as [n|[len why]] eqn:Hhead; [|reflexivity].
  apply utf8_head_progress in Hhead.
  apply IH; rewrite length_skipn; cbn [length] in *; lia.
Qed.

(** * Further properties *)

(** ** Stages of the probe *)

(** X1: when the MX lookup raises, returns no record, or returns a first
    record whose exchange is the empty string, [verify_email] answers
    [(False, "Domain MX record not found")] and opens no SMTP session. *)
Theorem verify_email_no_mx_record :
  forall (W : World) (self : EmailValidator) (email : string) (h : history)
         (r : result (bool * string)) (d : list event)
         (domain rdtype : string) (answer : result (list mx_rdata)),
    verify_email W self email h = (r, d) ->
    In (EvResolve domain rdtype answer) d ->
    mx_missing answer = true ->
    r = Ok (false, "Domain MX record not found") /\
    existsb smtp_event d = false.
Proof.
  intros W self email h r d domain rdtype answer Hrun.
  split_run Hrun.
  unfold verify_email, get_mx_record. unfold_m.
  repeat (cbn [fst snd app]; case_step); cbn [fst snd app];
    intros Hin Hmiss; in_events.
  all: repeat match goal with
       | H : nth_error ?l 0 = _ |- _ => destruct l; cbn in H
       | H : Some _ = Some _ |- _ => injection H as ?; subst
       | H : None = Some _ |- _ => discriminate H
       end.
  all: cbn in Hmiss;
       repeat match goal with
       | H : mx_exchange _ = _ |- _ => rewrite H in Hmiss
       end;
       try discriminate Hmiss.
  all: split; reflexivity.
Qed.

Lemma verify_email_no_mx_record_witness :
  fst (verify_email nxdomain_world default_validator "bob@example.invalid" [])
  = Ok (false, "Domain MX record not found").
Proof.
  apply (verify_email_no_mx_record nxdomain_world default_validator
           "bob@example.invalid" []
           (fst (verify_email nxdomain_world default_validator
                   "bob@example.invalid" []))
           (snd (verify_email nxdomain_world default_validator
                   "bob@example.invalid" []))
           "example.invalid" "MX"
           (Raise (mkExn DNSException
                     "The DNS query name does not exist: example.invalid."))).
  - reflexivity.
  - vm_compute. right. left. reflexivity.
  - reflexivity.
Defined.

(** X2: when opening the SMTP connection raises, [verify_email] answers
    [False] with the message its handlers give that exception
    (["SMTP connection error: ..."] for [SMTPConnectError]), the failed
    connection is the last thing that happened, and no SMTP command or
    session close was attempted. *)
Theorem verify_email_connect_failure :
  forall (W : World) (self : EmailValidator) (email : string) (h : history)
         (r : result (bool * string)) (d : list event)
         (host : string) (timeout : Z) (e : exn),
    verify_email W self email h = (r, d) ->
    In (EvConnect host timeout (Raise e)) d ->
    r = Ok (false, failure_message e) /\
    exists before,
      d = before ++ [EvConnect host timeout (Raise e)] /\
      existsb smtp_event before = false.
Proof.
  intros W self email h r d host timeout e Hrun.
  split_run Hrun.
  unfold verify_email, get_mx_record, failure_message. unfold_m.
  repeat (cbn [fst snd app]; case_step); cbn [fst snd app];
    intros Hin; in_events.
  all: try congruence.
  all: split; [reflexivity|].
  all: eexists; split;
       [ match goal with
         | |- ?l = _ => change l with (firstn 3 l ++ skipn 3 l)
         end; reflexivity
       | reflexivity ].
Qed.

Lemma verify_email_connect_failure_witness :
  fst (verify_email refusing_world default_validator "bob@example.org" [])
  = Ok (false, "SMTP connection error: (554, b'No SMTP service here')").
Proof.
  apply (verify_email_connect_failure refusing_world default_validator
           "bob@example.org" []
           (fst (verify_email refusing_world default_validator
                   "bob@example.org" []))
           (snd (verify_email refusing_world default_validator
                   "bob@example.org" []))
           "mx.example.org." 10%Z
           (mkExn SMTPConnectError "(554, b'No SMTP service here')")).
  - reflexivity.
  - vm_compute. do 3 right. left. reflexivity.
Defined.

(** X3: an SMTP session that was opened is always closed: if the
    connection succeeded, the trace of [verify_email] ends with the one
    and only session close, whether the probe returned a verdict or an
    SMTP command raised. *)
Theorem verify_email_closes_session :
  forall (W : World) (self : EmailValidator) (email : string) (h : history)
         (r : result (bool * string)) (d : list event)
         (host : string) (timeout : Z) (u : unit),
    verify_email W self email h = (r, d) ->
    In (EvConnect host timeout (Ok u)) d ->
    exists before closed,
      d = before ++ [EvExit closed] /\
      existsb is_exit before = false.
Proof.
  intros W self email h r d host timeout u Hrun.
  split_run Hrun.
  unfold verify_email, get_mx_record. unfold_m.
  repeat (cbn [fst snd app]; case_step); cbn [fst snd app];
    intros Hin; in_events.
  all: match goal with
       | |- exists before closed, ?l = _ /\ _ =>
         exists (removelast l); eexists; split; reflexivity
       end.
Qed.

Lemma verify_email_closes_session_witness :
  exists before closed,
    snd (verify_email dropping_world default_validator "bob@example.org" [])
    = before ++ [EvExit closed] /\
    existsb is_exit before = false.
Proof.
  apply (verify_email_closes_session dropping_world default_validator
           "bob@example.org" []
           (fst (verify_email dropping_world default_validator
                   "bob@example.org" []))
           (snd (verify_email dropping_world default_validator
                   "bob@example.org" []))
           "mx.example.org." 10%Z tt).
  - reflexivity.
  - vm_compute. do 3 right. left. reflexivity.
Defined.

(** X4: a positive verdict is given only after the complete exchange.  If
    [verify_email] returns [True], the message is
    ["Email address is valid"] and the trace is exactly: format check
    passed, MX lookup answered with at least one record, connection to
    the first record's exchange with a 10 second timeout, debug level
    set from the validator, HELO, MAIL FROM the validator's sender, RCPT
    TO the normalized address answered with code 250, session closed
    without error. *)
Theorem verify_email_valid_means_accepted :
  forall (W : World) (self : EmailValidator) (email : string) (h : history)
         (message : string) (d : list event),
    verify_email W self email h = (Ok (true, message), d) ->
    message = "Email address is valid" /\
    exists normalized local_part domain first others hello sender_ok reply_text,
      split "@" normalized = [local_part; domain] /\
      d = [EvValidate email (Ok normalized);
           EvResolve domain "MX" (Ok (first :: others));
           EvLog INFO ("MX record found for " +++ domain +++ ": "
                       +++ mx_exchange first);
           EvConnect (mx_exchange first) 10 (Ok tt);
           EvSetDebuglevel (debug_level self);
           EvHelo (Ok hello);
           EvMail (sender_email self) (Ok sender_ok);
           EvRcpt normalized (Ok (250%Z, reply_text));
           EvExit (Ok tt)].
Proof.
  intros W self email h message d Hrun.
  pose proof (f_equal fst Hrun) as Hr. pose proof (f_equal snd Hrun) as Hd.
  cbn [fst snd] in Hr, Hd. clear Hrun. subst d. revert Hr.
  unfold verify_email, get_mx_record. unfold_m.
  repeat (cbn [fst snd app]; case_step); cbn [fst snd app];
    intros Hr; try discriminate Hr.
  injection Hr as <-. split; [reflexivity|].
  repeat match goal with
         | H : nth_error ?l 0 = Some _ |- _ =>
           destruct l; cbn in H; [discriminate H|injection H as ->]
         | H : (_ =? _)%Z = true |- _ => apply Z.eqb_eq in H; subst
         | H : mx_exchange _ = _ |- _ => rewrite <- H
         | u : unit |- _ => destruct u
         end.
  do 8 eexists. split; [eassumption | reflexivity].
Qed.

Lemma verify_email_valid_means_accepted_witness :
  "Email address is valid" = "Email address is valid" /\
  exists normalized local_part domain first others hello sender_ok reply_text,
    split "@" normalized = [local_part; domain] /\
    snd (verify_email accepting_world default_validator "bob@example.org" [])
    = [EvValidate "bob@example.org" (Ok normalized);
       EvResolve domain "MX" (Ok (first :: others));
       EvLog INFO ("MX record found for " +++ domain +++ ": "
                   +++ mx_exchange first);
       EvConnect (mx_exchange first) 10 (Ok tt);
       EvSetDebuglevel (debug_level default_validator);
       EvHelo (Ok hello);
       EvMail (sender_email default_validator) (Ok sender_ok);
       EvRcpt normalized (Ok (250%Z, reply_text));
       EvExit (Ok tt)].
Proof.
  apply (verify_email_valid_means_accepted accepting_world default_validator
           "bob@example.org" [] "Email address is valid"
           (snd (verify_email accepting_world default_validator
                   "bob@example.org" []))).
  reflexivity.
Defined.

(** ** Addresses the split cannot handle *)

Lemma split_length (sep : ascii) (s : string) :
  length (split sep s) = S (count_char sep s).
Proof.
  induction s as [|c s IH]; [reflexivity|].
  cbn [split count_char]. destruct (Ascii.eqb c sep).
  - cbn [length]. now rewrite IH.
  - destruct (split sep s) as [|p ps]; [discriminate IH|].
    cbn [length] in *. cbn [Nat.add]. exact IH.
Qed.

(** X5: when the format check returns a normalized address that does not
    contain exactly one [@], the unpacking of [split('@')] fails;
    [verify_email] answers [False] with
    ["Error during verification: not enough values to unpack (expected 2, got 1)"]
    when there is none and
    ["Error during verification: too many values to unpack (expected 2)"]
    when there are several, and does nothing beyond the format check. *)
Theorem verify_email_at_sign_count :
  forall (W : World) (self : EmailValidator) (email : string) (h : history)
         (normalized : string),
    validate_email W h email = Ok normalized ->
    count_char "@" normalized <> 1%nat ->
    verify_email W self email h =
      (Ok (false,
           "Error during verification: " +++
           (if (count_char "@" normalized =? 0)%nat
            then "not enough values to unpack (expected 2, got 1)"
            else "too many values to unpack (expected 2)")),
       [EvValidate email (Ok normalized)]).
Proof.
  intros W self email h normalized Hv Hcount.
  pose proof (split_length "@" normalized) as Hlen.
  unfold verify_email. unfold_m. rewrite Hv. cbn [fst snd app].
  destruct (split "@" normalized) as [|a [|b [|c rest]]] eqn:Hsplit;
    cbn [length] in Hlen.
  - discriminate Hlen.
  - injection Hlen as Hlen. rewrite <- Hlen. reflexivity.
  - injection Hlen as Hlen. congruence.
  - injection Hlen as Hlen. rewrite <- Hlen. reflexivity.
Qed.

Lemma verify_email_at_sign_count_witness :
  verify_email accepting_world default_validator "not-an-email" [] =
    (Ok (false,
         "Error during verification: not enough values to unpack (expected 2, got 1)"),
     [EvValidate "not-an-email" (Ok "not-an-email")]).
Proof.
  apply (verify_email_at_sign_count accepting_world default_validator
           "not-an-email" [] "not-an-email").
  - reflexivity.
  - vm_compute. discriminate.
Defined.

(** X6: every answer of [verify_email] falls in one of seven classes:
    the positive verdict, or [False] with an invalid-format message, the
    missing-MX message, a server-response message, or one of the three
    messages of the exception handlers. *)
Theorem verify_email_message_classes :
  forall (W : World) (self : EmailValidator) (email : string) (h : history),
  exists is_valid message d,
    verify_email W self email h = (Ok (is_valid, message), d) /\
    ((is_valid = true /\ message = "Email address is valid") \/
     (is_valid = false /\
      ((exists why, message = "Invalid email format: " +++ why) \/
       message = "Domain MX record not found" \/
       (exists code reply_text,
          code <> 250%Z /\
          message = "Server response: " +++ str_of_Z code +++ " "
                    +++ reply_text) \/
       (exists e, message = failure_message e)))).
Proof.
  intros W self email h.
  unfold verify_email, get_mx_record, failure_message. unfold_m.
  repeat (cbn [fst snd app]; case_step); cbn [fst snd app];
    do 3 eexists; (split; [reflexivity|]).
  all: try (left; split; reflexivity).
  all: right; split; [reflexivity|].
  all: try (left; eexists; reflexivity).
  all: try (right; left; reflexivity).
  all: try (right; right; left; do 2 eexists; split; [|reflexivity];
            match goal with
            | H : (_ =? _)%Z = false |- _ => apply Z.eqb_neq in H; exact H
            end).
  all: right; right; right;
       match goal with
       | |- context [exn_msg ?e'] => exists e'
       end;
       repeat match goal with
              | H : isinstance_exn _ _ = _ |- _ => rewrite H
              end; reflexivity.
Qed.

(** ** One probe per address *)






(** ** Negative delay bounds *)






(** ** Reading the sheet *)

Lemma astype_str_strings (col : list pyval) :
  forallb isinstance_str (astype_str col) = true.
Proof. induction col as [|v col IH]; [reflexivity | exact IH]. Qed.

(** X9: [read_emails_from_excel] never raises.  It hands back either
    the frame it read, unchanged, together with the [str()] of every
    present cell of the requested column in row order, or no frame and
    an empty list; every element of the list is a string. *)
Theorem read_emails_from_excel_total :
  forall (W : World) (file_path email_column_name : string) (h : history),
  exists emails frame d,
    read_emails_from_excel W file_path email_column_name h =
      (Ok (emails, frame), d) /\
    forallb isinstance_str emails = true /\
    match frame with
    | None => emails = []
    | Some df =>
      read_excel W h file_path = Ok df /\
      exists column,
        df_lookup email_column_name (df_columns df) = Some column /\
        emails = map (fun v => PyStr (py_str v)) (dropna column)
    end.
Proof.
  intros W file_path email_column_name h.
  unfold read_emails_from_excel. unfold_m.
  destruct (read_excel W h file_path) as [df|e] eqn:Hread; cbn [fst snd app].
  - destruct (df_lookup email_column_name (df_columns df)) as [column|]
      eqn:Hcol; cbn [fst snd app].
    + do 3 eexists. split; [reflexivity|].
      split; [apply astype_str_strings|].
      split; [reflexivity|]. exists column. split; [exact Hcol | reflexivity].
    + do 3 eexists. split; [reflexivity|]. split; reflexivity.
  - destruct (isinstance_exn e FileNotFoundError); cbn [fst snd app];
      do 3 eexists; (split; [reflexivity|]); split; reflexivity.
Qed.

(** X10: the three ways the sheet can fail.  A missing file is logged
    as ["Excel file not found: <path>"], any other read error as
    ["Error reading Excel file: <error>"], an absent column as
    ["Column '<name>' not found in Excel file"]; each time the function
    returns [([], None)] after the single read attempt. *)
Theorem read_emails_from_excel_failures :
  forall (W : World) (file_path email_column_name : string) (h : history),
    match read_excel W h file_path with
    | Ok df => df_lookup email_column_name (df_columns df) = None
    | Raise _ => True
    end ->
    read_emails_from_excel W file_path email_column_name h =
      (Ok ([], None),
       [EvReadExcel file_path (read_excel W h file_path);
        EvLog ERROR
          match read_excel W h file_path with
          | Ok _ =>
            "Column '" +++ email_column_name +++ "' not found in Excel file"
          | Raise e =>
            if isinstance_exn e FileNotFoundError
            then "Excel file not found: " +++ file_path
            else "Error reading Excel file: " +++ exn_msg e
          end]).
Proof.
  intros W file_path email_column_name h.
  unfold read_emails_from_excel. unfold_m.
  destruct (read_excel W h file_path) as [df|e]; cbn [fst snd app].
  - intros ->. reflexivity.
  - intros _. destruct (isinstance_exn e FileNotFoundError); reflexivity.
Qed.

Lemma read_emails_from_excel_failures_witness :
  read_emails_from_excel other_world "input_emails.xlsx" "Email" [] =
    (Ok ([], None),
     [EvReadExcel "input_emails.xlsx" (Ok other_sheet);
      EvLog ERROR "Column 'Email' not found in Excel file"]).
Proof.
  apply (read_emails_from_excel_failures other_world "input_emails.xlsx"
           "Email" []).
  reflexivity.
Defined.

(** ** Column assignment *)

Lemma df_setitem_pure df name values h :
  df_setitem df name values h = (fst (df_setitem df name values []), []).
Proof.
  unfold df_setitem.
  destruct ((df_index df =? 0)%nat && negb (length values =? 0)%nat);
    [reflexivity|].
  destruct (length values =? df_index df)%nat; reflexivity.
Qed.

Lemma df_lookup_replace_same name values cols :
  df_lookup name (df_replace name values cols) = Some values.
Proof.
  induction cols as [|[k v] rest IH]; cbn [df_replace df_lookup].
  - now rewrite String.eqb_refl.
  - destruct (String.eqb k name) eqn:Hk; cbn [df_lookup]; rewrite Hk;
      [reflexivity | exact IH].
Qed.

Lemma df_lookup_replace_other name other values cols :
  other <> name ->
  df_lookup other (df_replace name values cols) = df_lookup other cols.
Proof.
  intros Hne.
  induction cols as [|[k v] rest IH]; cbn [df_replace df_lookup].
  - destruct (String.eqb name other) eqn:Hk; [|reflexivity].
    apply String.eqb_eq in Hk. congruence.
  - destruct (String.eqb k name) eqn:Hk; cbn [df_lookup].
    + apply String.eqb_eq in Hk. subst k.
      destruct (String.eqb name other) eqn:Hk'; [|reflexivity].
      apply String.eqb_eq in Hk'. congruence.
    + now rewrite IH.
Qed.

Lemma df_replace_wf n name values cols :
  length values = n ->
  Forall (fun c : string * list cell => length (snd c) = n) cols ->
  Forall (fun c : string * list cell => length (snd c) = n)
         (df_replace name values cols).
Proof.
  intros Hlen Hwf.
  induction Hwf as [|[k v] rest Hk Hrest IH]; cbn [df_replace].
  - constructor; [exact Hlen | constructor].
  - destruct (String.eqb k name); constructor; assumption.
Qed.

Lemma annotated_same_length df res :
  length res = df_index df ->
  annotated df res =
    Ok (mkDF (df_index df)
          (df_replace "Validation_Message" (map Some (map PyStr (messages res)))
             (df_replace "Is_Valid" (map Some (map PyBool (statuses res)))
                (df_columns df)))).
Proof.
  intros Hlen. unfold annotated, df_setitem, statuses, messages.
  unfold verification in *. rewrite !length_map, Hlen.
  destruct (df_index df =? 0)%nat eqn:Hz.
  - apply Nat.eqb_eq in Hz. rewrite Hz. reflexivity.
  - cbn [andb]. rewrite Nat.eqb_refl. cbn.
    rewrite ?length_map, ?Hlen, ?Hz, ?Nat.eqb_refl. reflexivity.
Qed.

Lemma annotated_raise df res e :
  annotated df res = Raise e ->
  length res <> df_index df /\
  e = mkExn ValueError
        ("Length of values (" +++ str_of_nat (length res)
         +++ ") does not match length of index ("
         +++ str_of_nat (df_index df) +++ ")").
Proof.
  unfold annotated, df_setitem, statuses, messages.
  unfold verification in *. rewrite !length_map.
  destruct ((df_index df =? 0)%nat && negb (length res =? 0)%nat) eqn:Hgrow.
  - cbn. rewrite ?length_map.
    apply andb_true_iff in Hgrow as [_ Hpos]. apply negb_true_iff in Hpos.
    rewrite ?Hpos, ?Nat.eqb_refl. cbn. rewrite ?Nat.eqb_refl. discriminate.
  - destruct (length res =? df_index df)%nat eqn:Hsame.
    + cbn. rewrite ?length_map, ?Hgrow, ?Hsame. cbn. discriminate.
    + cbn. intros H. injection H as <-.
      apply Nat.eqb_neq in Hsame. split; [exact Hsame | reflexivity].
Qed.

(** ** Runs of [main] *)

Lemma write_results_to_excel_run W df output_file_path h :
  write_results_to_excel W df output_file_path h =
    (Ok (negb (raised (to_excel W h df output_file_path))),
     [EvToExcel output_file_path df (to_excel W h df output_file_path);
      EvLog (if raised (to_excel W h df output_file_path) then ERROR else INFO)
        match to_excel W h df output_file_path with
        | Ok _ => "Results written to Excel file: " +++ output_file_path
        | Raise e => "Error writing to Excel file: " +++ exn_msg e
        end]).
Proof.
  unfold write_results_to_excel. unfold_m.
  destruct (to_excel W h df output_file_path); reflexivity.
Qed.

Lemma main_run_no_emails W h emails frame d_read :
  read_emails_from_excel W INPUT_FILE EMAIL_COLUMN (h ++ main_prologue) =
    (Ok (emails, frame), d_read) ->
  emails = [] \/ frame = None ->
  main W h =
    (Ok tt,
     main_prologue ++ d_read ++
     [EvPrint "No emails to process. Please check your input file and column name.";
      EvLog ERROR "No emails to process."]).
Proof.
  intros Hread Hnone. unfold main.
  erewrite bind_ok by reflexivity.
  erewrite bind_ok by reflexivity.
  rewrite <- app_assoc. cbn [app log_file].
  change [EvBasicConfig "email_verification.log";
          EvPrint "Starting email validation process..."]
    with main_prologue in *.
  erewrite bind_ok by exact Hread.
  assert (Hgoal :
    (print "No emails to process. Please check your input file and column name." ;;
     logging ERROR "No emails to process.") ((h ++ main_prologue) ++ d_read) =
    (Ok tt,
     [EvPrint "No emails to process. Please check your input file and column name.";
      EvLog ERROR "No emails to process."])) by reflexivity.
  destruct Hnone as [-> | ->].
  - cbv iota beta. rewrite Hgoal. reflexivity.
  - destruct emails; cbv iota beta; rewrite Hgoal; reflexivity.
Qed.

Lemma main_run_emails W h emails df d_read :
  read_emails_from_excel W INPUT_FILE EMAIL_COLUMN (h ++ main_prologue) =
    (Ok (emails, Some df), d_read) ->
  emails <> [] ->
  let found := [EvPrint ("Found " +++ str_of_nat (length emails)
                         +++ " emails to validate.")] in
  exists results d_batch,
    process_email_list W default_validator emails 1 5
      (h ++ main_prologue ++ d_read ++ found) = (Ok results, d_batch) /\
    addresses results = emails /\
    existsb is_to_excel d_batch = false /\
    main W h =
      match annotated df results with
      | Raise e =>
        (Raise e, main_prologue ++ d_read ++ found ++ d_batch)
      | Ok df' =>
        (Ok tt,
         main_prologue ++ d_read ++ found ++ d_batch ++
         main_epilogue W (h ++ main_prologue ++ d_read ++ found ++ d_batch)
           df' results)
      end.
Proof.
  intros Hread Hsome found.
  assert (H15 : (0 <= 1)%Q /\ (0 <= 5)%Q) by (split; discriminate).
  destruct H15 as [H1 H5].
  assert (Hfit : (1 <= sleep_limit)%Q /\ (5 <= sleep_limit)%Q)
    by (split; discriminate).
  destruct Hfit as [H1fit H5fit].
  destruct (process_loop_run W default_validator 1 5 (length emails) H1 H5
              H1fit H5fit
              emails 1 [] (h ++ main_prologue ++ d_read ++ found))
    as (results & d_batch & Hbatch & Hrel).
  cbn [app] in Hbatch.
  exists results, d_batch.
  split; [exact Hbatch|].
  split; [exact (loop_run_addresses _ _ _ _ _ _ _ _ _ _ Hrel)|].
  split; [exact (loop_run_no_to_excel _ _ _ _ _ _ _ _ _ _ Hrel)|].
  clear Hrel. unfold main.
  erewrite bind_ok by reflexivity.
  erewrite bind_ok by reflexivity.
  rewrite <- app_assoc. cbn [app log_file].
  change [EvBasicConfig "email_verification.log";
          EvPrint "Starting email validation process..."]
    with main_prologue in *.
  erewrite bind_ok by exact Hread.
  destruct emails as [|e0 es]; [congruence|].
  cbv iota beta.
  erewrite bind_ok by reflexivity.
  fold found.
  replace (((h ++ main_prologue) ++ d_read) ++ found)
    with (h ++ main_prologue ++ d_read ++ found) by now rewrite !app_assoc.
  erewrite bind_ok by exact Hbatch.
  cbv zeta.
  fold (statuses results). fold (messages results).
  unfold annotated.
  rewrite (df_setitem_pure df "Is_Valid" (map PyBool (statuses results)) []).
  cbn [fst].
  destruct (fst (df_setitem df "Is_Valid" (map PyBool (statuses results)) []))
    as [df1|e1] eqn:Hfirst.
  - erewrite bind_ok by (rewrite df_setitem_pure, Hfirst; reflexivity).
    destruct (fst (df_setitem df1 "Validation_Message"
                     (map PyStr (messages results)) []))
      as [df2|e2] eqn:Hsecond.
    + erewrite bind_ok by (rewrite df_setitem_pure, Hsecond; reflexivity).
      erewrite bind_ok by apply write_results_to_excel_run.
      unfold prepend, main_epilogue; cbn [fst snd].
      rewrite !app_nil_r.
      assert (Hh : (h ++ main_prologue ++ d_read ++ found) ++ d_batch =
                   h ++ main_prologue ++ d_read ++ found ++ d_batch)
        by (repeat rewrite <- app_assoc; reflexivity).
      rewrite Hh.
      destruct (to_excel W (h ++ main_prologue ++ d_read ++ found ++ d_batch)
                  df2 OUTPUT_FILE); reflexivity.
    + erewrite bind_raise by (rewrite df_setitem_pure, Hsecond; reflexivity).
      unfold prepend; cbn [fst snd].
      rewrite ?app_nil_r. repeat rewrite <- app_assoc. reflexivity.
  - erewrite bind_raise by (rewrite df_setitem_pure, Hfirst; reflexivity).
    unfold prepend; cbn [fst snd].
    rewrite ?app_nil_r. repeat rewrite <- app_assoc. reflexivity.
Qed.

Lemma read_emails_from_excel_no_frame W file_path email_column_name h :
  match read_excel W h file_path with
  | Ok df => df_lookup email_column_name (df_columns df) = None
  | Raise _ => True
  end ->
  exists lvl line,
    read_emails_from_excel W file_path email_column_name h =
      (Ok ([], None),
       [EvReadExcel file_path (read_excel W h file_path); EvLog lvl line]).
Proof.
  unfold read_emails_from_excel. unfold_m.
  destruct (read_excel W h file_path) as [df|e]; cbn [fst snd app].
  - intros ->. do 2 eexists. reflexivity.
  - intros _. destruct (isinstance_exn e FileNotFoundError);
      do 2 eexists; reflexivity.
Qed.

(** X11: when the sheet cannot be read, lacks the e-mail column, or has
    only missing values in it, [main] returns normally after four more
    events: the read attempt, its log line, the console notice and the
    error log.  No address is checked, no host is contacted and no
    output file is written. *)
Theorem main_aborts_without_emails :
  forall (W : World) (h : history),
    sheet_unusable (read_excel W (h ++ main_prologue) INPUT_FILE) ->
    exists lvl line,
      main W h =
        (Ok tt,
         main_prologue ++
         [EvReadExcel INPUT_FILE (read_excel W (h ++ main_prologue) INPUT_FILE);
          EvLog lvl line;
          EvPrint "No emails to process. Please check your input file and column name.";
          EvLog ERROR "No emails to process."]).
Proof.
  intros W h Hsheet. unfold sheet_unusable in Hsheet.
  destruct (read_excel W (h ++ main_prologue) INPUT_FILE) as [df|e] eqn:Hread.
  - destruct (df_lookup EMAIL_COLUMN (df_columns df)) as [column|] eqn:Hcol.
    + pose proof (read_emails_from_excel_run W INPUT_FILE EMAIL_COLUMN
                    (h ++ main_prologue) df column Hread Hcol) as Hrun.
      rewrite Hsheet in Hrun. cbn [astype_str map length] in Hrun.
      do 2 eexists.
      rewrite (main_run_no_emails W h _ _ _ Hrun) by (left; reflexivity).
      reflexivity.
    + destruct (read_emails_from_excel_no_frame W INPUT_FILE EMAIL_COLUMN
                  (h ++ main_prologue)) as (lvl & line & Hrun);
        [rewrite Hread; exact Hcol|].
      rewrite Hread in Hrun. exists lvl, line.
      rewrite (main_run_no_emails W h _ _ _ Hrun) by (right; reflexivity).
      reflexivity.
  - destruct (read_emails_from_excel_no_frame W INPUT_FILE EMAIL_COLUMN
                (h ++ main_prologue)) as (lvl & line & Hrun);
      [rewrite Hread; exact I|].
    rewrite Hread in Hrun. exists lvl, line.
    rewrite (main_run_no_emails W h _ _ _ Hrun) by (right; reflexivity).
    reflexivity.
Qed.

Lemma main_aborts_without_emails_witness :
  exists lvl line,
    main other_world [] =
      (Ok tt,
       main_prologue ++
       [EvReadExcel INPUT_FILE (Ok other_sheet);
        EvLog lvl line;
        EvPrint "No emails to process. Please check your input file and column name.";
        EvLog ERROR "No emails to process."]).
Proof.
  apply (main_aborts_without_emails other_world []).
  vm_compute. exact I.
Defined.

Lemma dropna_all_present (column : list cell) :
  ~ In None column -> length (dropna column) = length column.
Proof.
  induction column as [|[v|] rest IH]; cbn [dropna length In]; intros Hno.
  - reflexivity.
  - f_equal. apply IH. intros H. apply Hno. now right.
  - elim Hno. now left.
Qed.

(** X12: when every row of a well-formed sheet has an address, [main]
    returns normally with one result per row and hands [to_excel] a
    frame that is again well formed, has the same number of rows, holds
    the flags in column [Is_Valid] and the messages in column
    [Validation_Message], and agrees with the sheet on every other
    column.  This happens whether or not the write succeeds: a failed
    write is logged and reported on the console, and the summary line
    still follows. *)
Theorem main_writes_annotated_sheet :
  forall (W : World) (h : history) (df : DataFrame) (column : list cell),
    read_excel W (h ++ main_prologue) INPUT_FILE = Ok df ->
    df_wf df ->
    df_lookup EMAIL_COLUMN (df_columns df) = Some column ->
    column <> [] ->
    ~ In None column ->
    exists results df' before,
      length results = df_index df /\
      addresses results = map (fun v => PyStr (py_str v)) (dropna column) /\
      existsb is_to_excel before = false /\
      main W h =
        (Ok tt, before ++ main_epilogue W (h ++ before) df' results) /\
      df_wf df' /\
      df_index df' = df_index df /\
      df_lookup "Is_Valid" (df_columns df') =
        Some (map (fun r => Some (PyBool (snd (fst r)))) results) /\
      df_lookup "Validation_Message" (df_columns df') =
        Some (map (fun r => Some (PyStr (snd r))) results) /\
      forall name,
        name <> "Is_Valid" -> name <> "Validation_Message" ->
        df_lookup name (df_columns df') = df_lookup name (df_columns df).
Proof.
  intros W h df column Hread Hwf Hcol Hsome Hfull.
  pose proof (read_emails_from_excel_run W INPUT_FILE EMAIL_COLUMN
                (h ++ main_prologue) df column Hread Hcol) as Hrun.
  assert (Hrows : length column = df_index df).
  { destruct (df_lookup_in _ _ _ Hcol) as (k & Hin).
    unfold df_wf in Hwf. rewrite Forall_forall in Hwf. exact (Hwf _ Hin). }
  assert (Hlen : length (astype_str (dropna column)) = df_index df).
  { unfold astype_str. now rewrite length_map, dropna_all_present. }
  assert (Hne : astype_str (dropna column) <> []).
  { intros E. rewrite E in Hlen. cbn in Hlen.
    destruct column; [congruence | cbn in Hrows; lia]. }
  destruct (main_run_emails W h _ df _ Hrun Hne)
    as (results & d_batch & Hbatch & Haddr & Hquiet & Hmain).
  assert (Hres : length results = df_index df).
  { rewrite <- Hlen, <- Haddr. unfold addresses. now rewrite length_map. }
  rewrite (annotated_same_length df results Hres) in Hmain.
  cbv zeta in Hmain, Hbatch.
  match type of Hmain with
  | _ = (_, ?a ++ ?b ++ ?c ++ ?d ++ main_epilogue _ _ ?df' _) =>
    exists results, df', (a ++ b ++ c ++ d)
  end.
  split; [exact Hres|].
  split; [exact Haddr|].
  split; [|split; [rewrite Hmain; repeat rewrite <- app_assoc; reflexivity|]].
  - rewrite !existsb_app, Hquiet. reflexivity.
  - unfold statuses, messages. rewrite !map_map.
    split; [|split; [reflexivity|split; [|split]]].
    + unfold df_wf; cbn [df_index df_columns].
      apply df_replace_wf; [now rewrite length_map|].
      apply df_replace_wf; [now rewrite length_map | exact Hwf].
    + cbn [df_columns].
      rewrite df_lookup_replace_other by discriminate.
      apply df_lookup_replace_same.
    + cbn [df_columns]. apply df_lookup_replace_same.
    + intros name H1 H2. cbn [df_columns].
      now rewrite !df_lookup_replace_other.
Qed.

Lemma main_writes_annotated_sheet_witness :
  exists results df' before,
    length results = 2%nat /\
    addresses results =
      [PyStr "bob@example.org"; PyStr "amy@example.org"] /\
    existsb is_to_excel before = false /\
    main full_world [] =
      (Ok tt, before ++ main_epilogue full_world ([] ++ before) df' results) /\
    df_wf df' /\
    df_index df' = 2%nat /\
    df_lookup "Is_Valid" (df_columns df') =
      Some (map (fun r => Some (PyBool (snd (fst r)))) results) /\
    df_lookup "Validation_Message" (df_columns df') =
      Some (map (fun r => Some (PyStr (snd r))) results) /\
    forall name,
      name <> "Is_Valid" -> name <> "Validation_Message" ->
      df_lookup name (df_columns df') = df_lookup name (df_columns full_sheet).
Proof.
  apply (main_writes_annotated_sheet full_world [] full_sheet
           [Some (PyStr "bob@example.org"); Some (PyStr "amy@example.org")]).
  - reflexivity.
  - repeat constructor.
  - reflexivity.
  - discriminate.
  - simpl. intros [H|[H|[]]]; discriminate H.
Defined.

Lemma read_emails_from_excel_events W file_path email_column_name h r d :
  read_emails_from_excel W file_path email_column_name h = (r, d) ->
  existsb is_to_excel d = false.
Proof.
  intros Hrun. apply (f_equal snd) in Hrun. cbn [snd] in Hrun. subst d.
  unfold read_emails_from_excel. unfold_m.
  repeat (cbn [fst snd app]; case_step); reflexivity.
Qed.

Lemma no_to_excel_in (l : list event) path df saved :
  existsb is_to_excel l = false -> ~ In (EvToExcel path df saved) l.
Proof.
  intros Hnone Hin.
  assert (Hsome : existsb is_to_excel l = true)
    by (apply existsb_exists; eexists; split; [exact Hin | reflexivity]).
  congruence.
Qed.

Lemma annotated_columns df res df' :
  annotated df res = Ok df' ->
  df_index df' = length res /\
  df_lookup "Is_Valid" (df_columns df') =
    Some (map (fun r => Some (PyBool (snd (fst r)))) res) /\
  df_lookup "Validation_Message" (df_columns df') =
    Some (map (fun r => Some (PyStr (snd r))) res).
Proof.
  unfold annotated, df_setitem, statuses, messages.
  unfold verification in *. rewrite !length_map.
  destruct ((df_index df =? 0)%nat && negb (length res =? 0)%nat) eqn:Hgrow.
  - cbn. rewrite ?length_map.
    apply andb_true_iff in Hgrow as [_ Hpos]. apply negb_true_iff in Hpos.
    rewrite ?Hpos, ?Nat.eqb_refl. cbn. rewrite ?Nat.eqb_refl.
    intros H. injection H as <-. cbn [df_index df_columns].
    rewrite !map_map. split; [reflexivity|]. split.
    + rewrite df_lookup_replace_other by discriminate.
      apply df_lookup_replace_same.
    + apply df_lookup_replace_same.
  - destruct (length res =? df_index df)%nat eqn:Hsame; [|discriminate].
    cbn. rewrite ?length_map, ?Hgrow, ?Hsame. cbn.
    intros H. injection H as <-. cbn [df_index df_columns].
    apply Nat.eqb_eq in Hsame.
    rewrite !map_map. split; [now symmetry|]. split.
    + rewrite df_lookup_replace_other by discriminate.
      apply df_lookup_replace_same.
    + apply df_lookup_replace_same.
Qed.

(** X13: [main] never writes a half-finished sheet.  Whatever the
    collaborators answer, a [to_excel] call in the trace of [main] goes
    to [verified_emails.xlsx] and carries a frame that holds one flag
    per row in column [Is_Valid] and one message per row in column
    [Validation_Message], taken from the same list of results. *)
Theorem main_writes_only_annotated_frames :
  forall (W : World) (h : history) (r : result unit) (d : list event)
         (path : string) (df' : DataFrame) (saved : result unit),
    main W h = (r, d) ->
    In (EvToExcel path df' saved) d ->
    path = OUTPUT_FILE /\
    exists results : list verification,
      df_index df' = length results /\
      df_lookup "Is_Valid" (df_columns df') =
        Some (map (fun t => Some (PyBool (snd (fst t)))) results) /\
      df_lookup "Validation_Message" (df_columns df') =
        Some (map (fun t => Some (PyStr (snd t))) results).
Proof.
  intros W h r d path df' saved Hmain Hin.
  destruct (read_emails_from_excel W INPUT_FILE EMAIL_COLUMN
              (h ++ main_prologue)) as [[[emails frame]|e0] d_read] eqn:Hread.
  - pose proof (read_emails_from_excel_events _ _ _ _ _ _ Hread) as Hquiet0.
    assert (Habort : main W h =
              (Ok tt,
               main_prologue ++ d_read ++
               [EvPrint "No emails to process. Please check your input file and column name.";
                EvLog ERROR "No emails to process."]) -> False).
    { intros Hrun. rewrite Hrun in Hmain. injection Hmain as _ <-.
      cbn [main_prologue app In] in Hin.
      destruct Hin as [Hin|[Hin|Hin]]; try discriminate Hin.
      apply in_app_or in Hin as [Hin|Hin];
        [exact (no_to_excel_in _ _ _ _ Hquiet0 Hin)|].
      destruct Hin as [Hin|[Hin|[]]]; discriminate Hin. }
    destruct frame as [df|].
    + destruct emails as [|e1 es] eqn:Hemails.
      * exfalso. apply Habort.
        apply (main_run_no_emails W h _ _ _ Hread). now left.
      * rewrite <- Hemails in *.
        assert (Hne : emails <> []) by (rewrite Hemails; discriminate).
        destruct (main_run_emails W h _ df _ Hread Hne)
          as (results & d_batch & _ & _ & Hquiet & Hrun).
        rewrite Hrun in Hmain. clear Hrun. cbv zeta in Hmain.
        assert (Hbefore : forall tail,
                  In (EvToExcel path df' saved)
                     (main_prologue ++ d_read ++
                      [EvPrint ("Found " +++ str_of_nat (length emails)
                                +++ " emails to validate.")] ++
                      d_batch ++ tail) ->
                  In (EvToExcel path df' saved) tail).
        { intros tail H.
          apply in_app_or in H as [H|H];
            [destruct H as [H|[H|[]]]; discriminate H|].
          apply in_app_or in H as [H|H];
            [elim (no_to_excel_in _ _ _ _ Hquiet0 H)|].
          apply in_app_or in H as [H|H];
            [destruct H as [H|[]]; discriminate H|].
          apply in_app_or in H as [H|H];
            [elim (no_to_excel_in _ _ _ _ Hquiet H) | exact H]. }
        destruct (annotated df results) as [df2|e'] eqn:Hann.
        -- injection Hmain as _ <-.
           apply Hbefore in Hin. unfold main_epilogue in Hin.
           destruct Hin as [Hin|[Hin|[Hin|[Hin|[]]]]]; try discriminate Hin.
           injection Hin as <- <- _.
           split; [reflexivity|]. exists results.
           exact (annotated_columns _ _ _ Hann).
        -- injection Hmain as _ <-.
           rewrite <- (app_nil_r d_batch) in Hin.
           apply Hbefore in Hin. destruct Hin.
    + exfalso. apply Habort.
      apply (main_run_no_emails W h _ _ _ Hread). now right.
  - exfalso. revert Hread.
    unfold read_emails_from_excel. unfold_m.
    repeat (cbn [fst snd app]; case_step); discriminate.
Qed.

Lemma main_writes_only_annotated_frames_witness :
  exists results,
    df_index (mkDF 2
      (df_columns full_sheet ++
       [("Is_Valid", [Some (PyBool true); Some (PyBool true)]);
        ("Validation_Message",
         [Some (PyStr "Email address is valid");
          Some (PyStr "Email address is valid")])])) = length results /\
    Some [Some (PyBool true); Some (PyBool true)] =
      Some (map (fun t : verification => Some (PyBool (snd (fst t)))) results) /\
    Some [Some (PyStr "Email address is valid");
          Some (PyStr "Email address is valid")] =
      Some (map (fun t : verification => Some (PyStr (snd t))) results).
Proof.
  apply (main_writes_only_annotated_frames full_world []
           (fst (main full_world [])) (snd (main full_world []))
           OUTPUT_FILE
           (mkDF 2
              (df_columns full_sheet ++
               [("Is_Valid", [Some (PyBool true); Some (PyBool true)]);
                ("Validation_Message",
                 [Some (PyStr "Email address is valid");
                  Some (PyStr "Email address is valid")])]))
           (Ok tt)).
  - reflexivity.
  - vm_compute. auto 40.
Defined.

(** ** Deterministic collaborators *)

Lemma history_free_ret {A} (a : A) : history_free (ret a).
Proof. intros h1 h2. reflexivity. Qed.

Lemma history_free_raise {A} (e : exn) : history_free (@raise A e).
Proof. intros h1 h2. reflexivity. Qed.

Lemma history_free_emit (ev : event) : history_free (emit ev).
Proof. intros h1 h2. reflexivity. Qed.

Lemma history_free_lift {A} (r : result A) : history_free (lift r).
Proof. intros h1 h2. reflexivity. Qed.

Lemma history_free_call {A} (oracle : history -> result A) ev :
  (forall h1 h2, oracle h1 = oracle h2) -> history_free (call oracle ev).
Proof. intros Ho h1 h2. unfold call. now rewrite (Ho h1 h2). Qed.

Lemma history_free_bind {A B} (m : M A) (f : A -> M B) :
  history_free m -> (forall a, history_free (f a)) ->
  history_free (bind m f).
Proof.
  intros Hm Hf h1 h2. unfold bind. rewrite (Hm h1 h2).
  destruct (m h2) as [[a|e] d]; [|reflexivity].
  now rewrite (Hf a (h1 ++ d) (h2 ++ d)).
Qed.

Lemma history_free_try_except {A} (m : M A) (handler : exn -> M A) :
  history_free m -> (forall e, history_free (handler e)) ->
  history_free (try_except m handler).
Proof.
  intros Hm Hh h1 h2. unfold try_except. rewrite (Hm h1 h2).
  destruct (m h2) as [[a|e] d]; [reflexivity|].
  now rewrite (Hh e (h1 ++ d) (h2 ++ d)).
Qed.

Ltac history_free_step :=
  first
    [ apply history_free_ret
    | apply history_free_raise
    | apply history_free_emit
    | apply history_free_lift
    | apply history_free_bind
    | apply history_free_try_except
    | apply history_free_call; intros; auto ].

Section Deterministic.

Variable W : World.
Hypothesis Wblind : history_blind W.

Lemma history_free_get_mx_record self domain :
  history_free (get_mx_record W self domain).
Proof.
  destruct Wblind as (_ & Hdns & _).
  unfold get_mx_record, logging, getitem.
  apply history_free_try_except.
  - apply history_free_bind; [apply history_free_call; intros; apply Hdns|].
    intros records. destruct (nth_error records 0);
      repeat (history_free_step; intros).
  - intros e. repeat (history_free_step; intros).
Qed.

Lemma history_free_with_SMTP {A} host timeout (body : M A) :
  history_free body -> history_free (with_SMTP W host timeout body).
Proof.
  destruct Wblind as (_ & _ & Hconn & _ & _ & _ & Hexit & _).
  intros Hbody. unfold with_SMTP.
  apply history_free_bind; [apply history_free_call; intros; apply Hconn|].
  intros _ h1 h2. rewrite (Hbody h1 h2).
  destruct (body h2) as [r d].
  now rewrite (Hexit (h1 ++ d) (h2 ++ d)).
Qed.

Lemma history_free_verify_email self email :
  history_free (verify_email W self email).
Proof.
  pose proof Wblind as (Hval & _ & _ & Hhelo & Hmail & Hrcpt & _).
  unfold verify_email, try_except_as.
  apply history_free_try_except.
  - apply history_free_bind.
    + apply history_free_try_except.
      * apply history_free_bind;
          [apply history_free_call; intros; apply Hval|].
        intros; apply history_free_ret.
      * intros e. destruct (isinstance_exn e EmailNotValidError);
          history_free_step.
    + intros [normalized|early]; [|apply history_free_ret].
      apply history_free_bind.
      * unfold unpack2.
        destruct (split "@" normalized) as [|a [|b [|c rest]]];
          history_free_step.
      * intros [local_part domain].
        apply history_free_bind; [apply history_free_get_mx_record|].
        intros [[|c host]|]; try apply history_free_ret.
        apply history_free_with_SMTP.
        apply history_free_bind; [apply history_free_emit|]. intros _.
        apply history_free_bind;
          [apply history_free_call; intros; apply Hhelo|]. intros _.
        apply history_free_bind;
          [apply history_free_call; intros; apply Hmail|]. intros _.
        apply history_free_bind;
          [apply history_free_call; intros; apply Hrcpt|].
        intros [code message].
        destruct (code =? 250)%Z; [apply history_free_ret|].
        apply history_free_bind; [apply history_free_lift|].
        intros; apply history_free_ret.
  - intros e.
    destruct (isinstance_exn e SMTPConnectError); [apply history_free_ret|].
    destruct (isinstance_exn e SMTPServerDisconnected); apply history_free_ret.
Qed.

Lemma history_free_process_loop self min_delay max_delay total items :
  forall i results,
    history_free (process_loop W self min_delay max_delay total i items results).
Proof.
  pose proof Wblind as (_ & _ & _ & _ & _ & _ & _ & Hrand & _).
  induction items as [|email rest IH]; intros i results.
  - apply history_free_ret.
  - destruct email; cbn [process_loop];
      try (apply history_free_bind; [apply history_free_emit|];
           intros _; apply IH).
    apply history_free_bind; [apply history_free_verify_email|].
    intros [is_valid message].
    apply history_free_bind; [apply history_free_emit|]. intros _.
    apply history_free_bind; [apply history_free_emit|]. intros _.
    apply history_free_bind; [|intros _; apply IH].
    destruct (i <? total)%nat; [|apply history_free_ret].
    apply history_free_bind.
    + unfold random_uniform. apply history_free_bind.
      * intros h1 h2. unfold random_random. now rewrite (Hrand h1 h2).
      * intros u. apply history_free_bind; [apply history_free_emit|].
        intros _. apply history_free_ret.
    + intros delay. unfold time_sleep.
      destruct (negb (fits_pytime delay)); [history_free_step|].
      destruct (Qle_bool 0 delay); history_free_step.
Qed.

End Deterministic.

(** X14: with deterministic collaborators, that is oracles whose answers
    depend on their arguments only, what happened before does not
    matter: [verify_email] and [process_email_list] give the same result
    and add the same events after any two histories.  Running the same
    batch again yields identical result tuples. *)
Theorem process_email_list_repeatable :
  forall (W : World) (self : EmailValidator),
    history_blind W ->
    (forall email h1 h2,
       verify_email W self email h1 = verify_email W self email h2) /\
    (forall email_list min_delay max_delay h1 h2,
       process_email_list W self email_list min_delay max_delay h1 =
       process_email_list W self email_list min_delay max_delay h2).
Proof.
  intros W self Hblind. split.
  - intros email. apply history_free_verify_email. exact Hblind.
  - intros email_list min_delay max_delay. unfold process_email_list.
    apply history_free_process_loop. exact Hblind.
Qed.

Lemma process_email_list_repeatable_witness :
  process_email_list fake_world default_validator
    [PyStr "a@b.c"; PyStr "d@e.f"] 1 5 [] =
  process_email_list fake_world default_validator
    [PyStr "a@b.c"; PyStr "d@e.f"] 1 5 [EvPrint "an earlier run"].
Proof.
  apply (proj2 (process_email_list_repeatable fake_world default_validator
                  ltac:(repeat split; intros; reflexivity))).
Defined.
